(** * vlist-vue: the [useVList] and [useVListEvent] composables

    A shallow embedding of [src/index.ts] and of the second copy of the
    same module the repository carries (it differs in how the grouping
    configuration is handed to [withSections]).  JavaScript values live in
    a heap of plain objects, Vue's [ref] cells in a store of their own, and
    every call into the external engine ([vlist], [use], [build],
    [setItems], [on], [destroy]) is recorded in a trace.

    What the model leaves out: numbers are integers (no [NaN], no signed
    zero); functions, [window], elements and engine instances are opaque
    and have no properties of their own; a reactive proxy is identified
    with the object it wraps; the engine and the functions the user
    supplies do not touch the heap. *)

From Stdlib Require Import ZArith.
From stdpp Require Import base option list gmap strings pretty.

Open Scope string_scope.
Open Scope list_scope.

(** ** JavaScript values *)

Definition loc := positive.

Inductive value :=
| VUndefined
| VNull
| VBool (b : bool)
| VNum (n : Z)
| VStr (s : string)
| VObject (l : loc)      (* reference to a plain object or array *)
| VFunction (f : nat)    (* a user-supplied function *)
| VWindow                (* the global [window] *)
| VElement (e : nat)     (* an [HTMLDivElement] *)
| VInstance (i : nat).   (* an engine instance, as returned by [build] *)

#[global] Instance value_eq_dec : EqDecision value.
Proof. solve_decision. Defined.

(** A heap cell: an object literal (its own enumerable properties) or an
    array. *)
Inductive cell :=
| Obj (fields : gmap string value)
| Arr (elems : list value).

#[global] Instance cell_eq_dec : EqDecision cell.
Proof. solve_decision. Defined.

Module JS.

(** [ToBoolean]: numbers are integer valued here, so [NaN] does not
    occur. *)
Definition truthy (v : value) : bool :=
  match v with
  | VUndefined | VNull => false
  | VBool b => b
  | VNum n => negb (Z.eqb n 0)
  | VStr s => negb (String.eqb s "")
  | _ => true
  end.

Definition typeof (v : value) : string :=
  match v with
  | VUndefined => "undefined"
  | VBool _ => "boolean"
  | VNum _ => "number"
  | VStr _ => "string"
  | VFunction _ => "function"
  | VNull | VObject _ | VWindow | VElement _ | VInstance _ => "object"
  end.

Definition nullish (v : value) : bool :=
  match v with VUndefined | VNull => true | _ => false end.

(** [a === b] *)
Definition strict_eq (a b : value) : bool := bool_decide (a = b).

(** The own property [k] of a cell.  The adapter reads no index and no
    [length], so an array answers [undefined]. *)
Definition cell_prop (c : cell) (k : string) : value :=
  match c with
  | Obj m => default VUndefined (m !! k)
  | Arr _ => VUndefined
  end.

(** [v.k] on a heap: [None] stands for the [TypeError] of reading a
    property of [undefined] or [null].  Primitives, functions and host
    objects have none of the properties the adapter asks for. *)
Definition prop (h : gmap loc cell) (v : value) (k : string) : option value :=
  match v with
  | VUndefined | VNull => None
  | VObject l => Some (from_option (λ c, cell_prop c k) VUndefined (h !! l))
  | _ => Some VUndefined
  end.

(** [v?.k] *)
Definition opt_prop (h : gmap loc cell) (v : value) (k : string) : value :=
  default VUndefined (prop h v k).

(** The properties copied by the spread [{...v}]. *)
Definition own_props (h : gmap loc cell) (v : value) : gmap string value :=
  match v with
  | VObject l =>
      match h !! l with
      | Some (Obj m) => m
      | Some (Arr xs) => list_to_map (imap (λ i x, (pretty i, x)) xs)
      | None => ∅
      end
  | VStr s =>
      list_to_map (imap (λ i a, (pretty i, VStr (String a "")))
                     (String.list_ascii_of_string s))
  | _ => ∅
  end.

End JS.

(** ** The external engine, as a recording double

    Modelled from the spec: the engine ([@floor/vlist]) is an external
    collaborator.  Of it the adapter uses a builder entry point, [use] on
    the builder, [build], and on the instance [setItems], [on] (which
    returns a release handle) and [destroy]; the extension constructors
    take an options object.  The double records every call and never
    fails on an instance. *)

(** [(payload) => { handlerRef.value(payload) }] of [useVListEvent]; the
    closure captures the cell [handlerRef]. *)
Inductive callback :=
| Wrapped (handlerRef : nat).

(** What the engine's extension constructors return: the constructor that
    was called and the options it was given. *)
Inductive extension :=
| withPage
| withAsync (options : value)
| withGrid (options : value)
| withSections (options : value)
| withSelection (options : value)
| withScale
| withScrollbar (options : value)
| withSnapshots.

Record Builder := mkBuilder {
  b_config : value;
  b_plugins : list extension
}.

(** Calls that leave the adapter: into the engine, and into functions the
    user supplied. *)
Inductive event :=
| Evlist (config : value)
| Euse (p : extension)
| Ebuild (i : nat) (b : Builder)
| EsetItems (i : nat) (items : value)
| Eon (i : nat) (name : string) (cb : callback) (u : nat)
| Eunsub (u : nat)
| Edestroy (i : nat)
| Ecall (f : nat) (args : list value).

#[global] Instance callback_eq_dec : EqDecision callback.
Proof. solve_decision. Defined.
#[global] Instance extension_eq_dec : EqDecision extension.
Proof. solve_decision. Defined.
#[global] Instance Builder_eq_dec : EqDecision Builder.
Proof. solve_decision. Defined.
#[global] Instance event_eq_dec : EqDecision event.
Proof. solve_decision. Defined.

(** ** The host component *)

(** The two files of the repository that define [useVList]. *)
Inductive Copy := SrcIndex | Part002.

(** [UseVListConfig<T> | Ref<UseVListConfig<T>>]; [isRef] tells them
    apart. *)
Inductive ConfigInput :=
| Plain (config : value)
| Reactive (r : nat).

(** The closures the composables hand to [onMounted] and
    [onBeforeUnmount], each with the variables it captures. *)
Inductive hook :=
| BuildOnMount (c : Copy) (containerRef instance : nat) (configInput : ConfigInput)
| DestroyOnUnmount (instance : nat)
| Release (unsub : nat).

(** The two observers: [() => configInput.value.items] with the item sync,
    [() => instanceRef.value] with the subscription. *)
Inductive source :=
| ItemsOf (configInput : nat)
| ValueOf (instanceRef : nat).

Inductive reaction :=
| SyncItems (instance : nat)
| Subscribe (name : string) (handlerRef : nat).

Record watcher := mkWatcher {
  w_source : source;
  w_reaction : reaction;
  w_last : value
}.

Record World := mkWorld {
  heap : gmap loc cell;            (* plain objects and arrays *)
  refs : gmap nat value;           (* [.value] of every ref and shallowRef *)
  mountedHooks : list hook;
  beforeUnmountHooks : list hook;
  watchers : list watcher;
  trace : list event;              (* oldest first *)
  next_id : nat;                   (* names for instances and subscriptions *)
  in_setup : bool                  (* the component's [setup] is running *)
}.

Definition set_heap (h : gmap loc cell) (w : World) : World :=
  mkWorld h (refs w) (mountedHooks w) (beforeUnmountHooks w) (watchers w) (trace w) (next_id w) (in_setup w).
Definition set_refs (r : gmap nat value) (w : World) : World :=
  mkWorld (heap w) r (mountedHooks w) (beforeUnmountHooks w) (watchers w) (trace w) (next_id w) (in_setup w).
Definition set_mountedHooks (hs : list hook) (w : World) : World :=
  mkWorld (heap w) (refs w) hs (beforeUnmountHooks w) (watchers w) (trace w) (next_id w) (in_setup w).
Definition set_beforeUnmountHooks (hs : list hook) (w : World) : World :=
  mkWorld (heap w) (refs w) (mountedHooks w) hs (watchers w) (trace w) (next_id w) (in_setup w).
Definition set_watchers (ws : list watcher) (w : World) : World :=
  mkWorld (heap w) (refs w) (mountedHooks w) (beforeUnmountHooks w) ws (trace w) (next_id w) (in_setup w).
Definition set_trace (t : list event) (w : World) : World :=
  mkWorld (heap w) (refs w) (mountedHooks w) (beforeUnmountHooks w) (watchers w) t (next_id w) (in_setup w).
Definition set_next_id (n : nat) (w : World) : World :=
  mkWorld (heap w) (refs w) (mountedHooks w) (beforeUnmountHooks w) (watchers w) (trace w) n (in_setup w).
Definition set_in_setup (b : bool) (w : World) : World :=
  mkWorld (heap w) (refs w) (mountedHooks w) (beforeUnmountHooks w) (watchers w) (trace w) (next_id w) b.

(** The current [.value] of a cell. *)
Definition ref_value (w : World) (r : nat) : value :=
  default VUndefined (refs w !! r).

(** ** Computations: state, and JavaScript exceptions *)

Inductive exn := TypeError.

Inductive Outcome (A : Type) :=
| Ok (a : A) (w : World)
| Throw (e : exn) (w : World).
Arguments Ok {A} a w.
Arguments Throw {A} e w.

Definition M (A : Type) : Type := World → Outcome A.

#[global] Instance M_ret : MRet M := λ A a w, Ok a w.
#[global] Instance M_bind : MBind M := λ A B f m w,
  match m w with
  | Ok a w' => f a w'
  | Throw e w' => Throw e w'
  end.

Definition gets {A} (f : World → A) : M A := λ w, Ok (f w) w.
Definition modify (f : World → World) : M unit := λ w, Ok tt (f w).
Definition throw {A} (e : exn) : M A := λ w, Throw e w.

Definition emit (e : event) : M unit :=
  modify (λ w, set_trace (trace w ++ [e]) w).

Definition fresh_id : M nat :=
  λ w, Ok (next_id w) (set_next_id (S (next_id w)) w).

(** [v.k] *)
Definition get (v : value) (k : string) : M value :=
  λ w, match JS.prop (heap w) v k with
       | Some x => Ok x w
       | None => Throw TypeError w
       end.

(** [v?.k] *)
Definition get_opt (v : value) (k : string) : M value :=
  gets (λ w, JS.opt_prop (heap w) v k).

(** An object literal: a new object with the given properties. *)
Definition new_object (m : gmap string value) : M value :=
  λ w, let l := fresh (dom (heap w)) in
       Ok (VObject l) (set_heap (<[l := Obj m]> (heap w)) w).

(** [{ ...v }] as a property map. *)
Definition spread (v : value) : M (gmap string value) :=
  gets (λ w, JS.own_props (heap w) v).

(** Calling a value: the call is recorded and the function's result
    returned; calling what is not a function is a [TypeError]. *)
Definition call (user_fn : nat → list value → value) (f : value)
    (args : list value) : M value :=
  match f with
  | VFunction n => emit (Ecall n args);; mret (user_fn n args)
  | _ => throw TypeError
  end.

Module Engine.

Definition vlist (config : value) : M Builder :=
  emit (Evlist config);; mret (mkBuilder config []).

Definition use (b : Builder) (p : extension) : M Builder :=
  emit (Euse p);; mret (mkBuilder (b_config b) (b_plugins b ++ [p])).

Definition build (b : Builder) : M value :=
  i ← fresh_id; emit (Ebuild i b);; mret (VInstance i).

Definition setItems (inst items : value) : M unit :=
  match inst with
  | VInstance i => emit (EsetItems i items)
  | _ => throw TypeError
  end.

Definition on (inst : value) (name : string) (cb : callback) : M nat :=
  match inst with
  | VInstance i => u ← fresh_id; emit (Eon i name cb u);; mret u
  | _ => throw TypeError
  end.

Definition destroy (inst : value) : M unit :=
  match inst with
  | VInstance i => emit (Edestroy i)
  | _ => throw TypeError
  end.

Definition unsub (u : nat) : M unit := emit (Eunsub u).

End Engine.

(** ** What the adapter uses of Vue

    Modelled from the spec: the host framework is an external
    collaborator.  Of it the adapter uses cells with a [.value], the two
    lifecycle registrations, and (further down, because it runs the
    adapter's own closures) the observation primitive with the mount and
    unmount signals.  Where the spec is silent the model follows the
    framework: a lifecycle registration takes effect only while the
    component's [setup] is running. *)

Module Vue.

(** [ref(v)] *)
Definition ref (v : value) : M nat :=
  λ w, let r := fresh (dom (refs w)) in
       Ok r (set_refs (<[r := v]> (refs w)) w).

(** [shallowRef(v)]: the values kept in cells are not tracked deeply
    here, so it is [ref]. *)
Definition shallowRef (v : value) : M nat := ref v.

(** [r.value] *)
Definition read (r : nat) : M value := gets (λ w, ref_value w r).

(** [r.value = v] *)
Definition write (r : nat) (v : value) : M unit :=
  modify (λ w, set_refs (<[r := v]> (refs w)) w).

Definition isRef (c : ConfigInput) : bool :=
  match c with Reactive _ => true | Plain _ => false end.

Definition unref (c : ConfigInput) : M value :=
  match c with
  | Plain config => mret config
  | Reactive r => read r
  end.

(** [onMounted(h)]: the callback is registered on the component whose
    [setup] is running; called when none is running (from an observer
    reacting later, say) it registers nothing. *)
Definition onMounted (h : hook) : M unit :=
  modify (λ w, if in_setup w then set_mountedHooks (mountedHooks w ++ [h]) w else w).

(** [onBeforeUnmount(h)], likewise. *)
Definition onBeforeUnmount (h : hook) : M unit :=
  modify (λ w, if in_setup w
               then set_beforeUnmountHooks (beforeUnmountHooks w ++ [h]) w else w).

(** The host runs a component's [setup]: the component is current while
    the body runs, and no longer once it has returned. *)
Definition setup {A} (body : M A) : M A :=
  modify (set_in_setup true);;
  a ← body;
  modify (set_in_setup false);;
  mret a.

End Vue.

(** ** The adapter *)

Section Adapter.

(** What the functions supplied by the user return. *)
Variable user_fn : nat → list value → value.

(** *** The [onMounted] callback of [useVList], extension by extension *)

(** [if (config.scroll?.element === window) builder = builder.use(withPage())] *)
Definition attachPage (config : value) (builder : Builder) : M Builder :=
  scroll ← get config "scroll";
  element ← get_opt scroll "element";
  if JS.strict_eq element VWindow then Engine.use builder withPage
  else mret builder.

(** [if (config.adapter) builder = builder.use(withAsync({ adapter:
    config.adapter, ...(config.loading && { loading: config.loading }) }))] *)
Definition attachAsync (config : value) (builder : Builder) : M Builder :=
  a ← get config "adapter";
  if JS.truthy a then
    adapter ← get config "adapter";
    l ← get config "loading";
    options ← (if JS.truthy l then
                 loading ← get config "loading";
                 new_object (<["loading" := loading]> {["adapter" := adapter]})
               else new_object {["adapter" := adapter]});
    Engine.use builder (withAsync options)
  else mret builder.

(** [if (config.layout === "grid" && config.grid) builder =
    builder.use(withGrid(config.grid))] *)
Definition attachGrid (config : value) (builder : Builder) : M Builder :=
  layout ← get config "layout";
  if JS.strict_eq layout (VStr "grid") then
    g ← get config "grid";
    if JS.truthy g then
      grid ← get config "grid";
      Engine.use builder (withGrid grid)
    else mret builder
  else mret builder.

(** [if (config.groups) ...]: [src/index.ts] hands [config.groups] to
    [withSections] as it is; the other copy builds the options itself and
    calls a function-valued [headerHeight] with [("", 0)]. *)
Definition attachSections (c : Copy) (config : value) (builder : Builder) : M Builder :=
  g ← get config "groups";
  if JS.truthy g then
    match c with
    | SrcIndex =>
        groups ← get config "groups";
        Engine.use builder (withSections groups)
    | Part002 =>
        groupsConfig ← get config "groups";
        h ← get groupsConfig "headerHeight";
        headerHeight ← (if String.eqb (JS.typeof h) "function" then
                          f ← get groupsConfig "headerHeight";
                          call user_fn f [VStr ""; VNum 0]
                        else get groupsConfig "headerHeight");
        getGroupForIndex ← get groupsConfig "getGroupForIndex";
        headerTemplate ← get groupsConfig "headerTemplate";
        s ← get groupsConfig "sticky";
        options ← (if negb (JS.strict_eq s VUndefined) then
                     sticky ← get groupsConfig "sticky";
                     new_object (<["sticky" := sticky]>
                                   (<["headerTemplate" := headerTemplate]>
                                      (<["headerHeight" := headerHeight]>
                                         {["getGroupForIndex" := getGroupForIndex]})))
                   else
                     new_object (<["headerTemplate" := headerTemplate]>
                                   (<["headerHeight" := headerHeight]>
                                      {["getGroupForIndex" := getGroupForIndex]})));
        Engine.use builder (withSections options)
    end
  else mret builder.

(** [const selectionMode = config.selection?.mode || "none"] and the
    branch on it. *)
Definition attachSelection (config : value) (builder : Builder) : M Builder :=
  sel ← get config "selection";
  mode ← get_opt sel "mode";
  let selectionMode := if JS.truthy mode then mode else VStr "none" in
  if negb (JS.strict_eq selectionMode (VStr "none")) then
    selection ← get config "selection";
    Engine.use builder (withSelection selection)
  else
    options ← new_object {["mode" := VStr "none"]};
    Engine.use builder (withSelection options).

(** [const scrollbarConfig = config.scroll?.scrollbar || config.scrollbar]
    and the branch on it. *)
Definition attachScrollbar (config : value) (builder : Builder) : M Builder :=
  scroll ← get config "scroll";
  s ← get_opt scroll "scrollbar";
  scrollbarConfig ← (if JS.truthy s then mret s else get config "scrollbar");
  if negb (JS.strict_eq scrollbarConfig (VStr "none")) then
    scrollbarOptions ← (if String.eqb (JS.typeof scrollbarConfig) "object"
                        then mret scrollbarConfig
                        else new_object ∅);
    Engine.use builder (withScrollbar scrollbarOptions)
  else mret builder.

(** The whole callback. *)
Definition useVList_onMounted (c : Copy) (containerRef instance : nat)
    (configInput : ConfigInput) : M unit :=
  container ← Vue.read containerRef;
  if negb (JS.truthy container) then mret tt
  else
    config ← Vue.unref configInput;
    copied ← spread config;
    seed ← new_object (<["container" := container]> copied);
    builder ← Engine.vlist seed;
    builder ← attachPage config builder;
    builder ← attachAsync config builder;
    builder ← attachGrid config builder;
    builder ← attachSections c config builder;
    builder ← attachSelection config builder;
    builder ← Engine.use builder withScale;
    builder ← attachScrollbar config builder;
    builder ← Engine.use builder withSnapshots;
    built ← Engine.build builder;
    Vue.write instance built.

(** [instance.value?.destroy(); instance.value = null] *)
Definition useVList_onBeforeUnmount (instance : nat) : M unit :=
  inst ← Vue.read instance;
  (if JS.nullish inst then mret tt else Engine.destroy inst);;
  Vue.write instance VNull.

(** [(newItems) => { if (instance.value && newItems)
    instance.value.setItems(newItems) }] *)
Definition useVList_onItems (instance : nat) (newItems : value) : M unit :=
  i ← Vue.read instance;
  if JS.truthy i && JS.truthy newItems then
    inst ← Vue.read instance;
    Engine.setItems inst newItems
  else mret tt.

(** [(payload) => { handlerRef.value(payload) }] *)
Definition wrappedHandler (handlerRef : nat) (payload : value) : M unit :=
  handler ← Vue.read handlerRef;
  call user_fn handler [payload];;
  mret tt.

Definition invoke (cb : callback) (payload : value) : M unit :=
  match cb with Wrapped handlerRef => wrappedHandler handlerRef payload end.

(** The observer callback of [useVListEvent]. *)
Definition useVListEvent_onInstance (name : string) (handlerRef : nat)
    (instance : value) : M unit :=
  if negb (JS.truthy instance) then mret tt
  else
    unsub ← Engine.on instance name (Wrapped handlerRef);
    Vue.onBeforeUnmount (Release unsub).

(** *** Running the closures *)

Definition run_hook (h : hook) : M unit :=
  match h with
  | BuildOnMount c containerRef instance configInput =>
      useVList_onMounted c containerRef instance configInput
  | DestroyOnUnmount instance => useVList_onBeforeUnmount instance
  | Release unsub => Engine.unsub unsub
  end.

Definition eval_source (s : source) : M value :=
  match s with
  | ItemsOf configInput => config ← Vue.read configInput; get config "items"
  | ValueOf instanceRef => Vue.read instanceRef
  end.

Definition run_reaction (r : reaction) (v : value) : M unit :=
  match r with
  | SyncItems instance => useVList_onItems instance v
  | Subscribe name handlerRef => useVListEvent_onInstance name handlerRef v
  end.

(** *** The host's signals and its observation primitive

    Modelled from the spec: an observer takes a value-producing accessor
    and a reaction, optionally running the reaction at once; reactions
    are serialized by the host; the mount and unmount signals run the
    registered callbacks in order. *)

(** [watch(source, reaction, { immediate })]: the source is read once when
    the observer is set up; with [immediate] the reaction runs on that
    value at once. *)
Definition watch (s : source) (r : reaction) (immediate : bool) : M unit :=
  v ← eval_source s;
  modify (λ w, set_watchers (watchers w ++ [mkWatcher s r v]) w);;
  if immediate then run_reaction r v else mret tt.

(** One observer, when the host lets observers react: the reaction runs
    if the source no longer has the value last seen. *)
Definition poll (x : watcher) : M watcher :=
  v ← eval_source (w_source x);
  if bool_decide (v = w_last x) then mret x
  else run_reaction (w_reaction x) v;; mret (mkWatcher (w_source x) (w_reaction x) v).

Fixpoint poll_all (xs : list watcher) : M (list watcher) :=
  match xs with
  | [] => mret []
  | x :: xs' => x' ← poll x; rest ← poll_all xs'; mret (x' :: rest)
  end.

Definition flush : M unit :=
  xs ← gets watchers;
  xs' ← poll_all xs;
  modify (set_watchers xs').

Fixpoint run_hooks (hs : list hook) : M unit :=
  match hs with
  | [] => mret tt
  | h :: hs' => run_hook h;; run_hooks hs'
  end.

(** The mount signal.  The callbacks of this module register nothing
    when they run, so whether a component is current during a signal is
    not observed and is left as it is. *)
Definition mount : M unit := hs ← gets mountedHooks; run_hooks hs.

(** The unmount signal. *)
Definition unmount : M unit := hs ← gets beforeUnmountHooks; run_hooks hs.

(** *** The composables *)

Definition useVList (c : Copy) (configInput : ConfigInput) : M (nat * nat) :=
  containerRef ← Vue.ref VNull;
  instance ← Vue.shallowRef VNull;
  Vue.onMounted (BuildOnMount c containerRef instance configInput);;
  Vue.onBeforeUnmount (DestroyOnUnmount instance);;
  match configInput with
  | Reactive r => watch (ItemsOf r) (SyncItems instance) false
  | Plain _ => mret tt
  end;;
  mret (containerRef, instance).

Definition useVListEvent (instanceRef : nat) (name : string) (handler : value) : M unit :=
  handlerRef ← Vue.ref handler;
  watch (ValueOf instanceRef) (Subscribe name handlerRef) true.

End Adapter.

(** * Vocabulary of the specification *)

(** ** Well-formed heaps *)

(** A value does not dangle: what it refers to is in the heap. *)
Definition allocated (h : gmap loc cell) (v : value) : Prop :=
  match v with
  | VObject l => is_Some (h !! l)
  | _ => True
  end.

#[global] Instance allocated_dec h v : Decision (allocated h v).
Proof. destruct v; simpl; apply _. Defined.

Definition cell_closed (h : gmap loc cell) (c : cell) : Prop :=
  match c with
  | Obj m => map_Forall (λ _ v, allocated h v) m
  | Arr xs => Forall (allocated h) xs
  end.

#[global] Instance cell_closed_dec h c : Decision (cell_closed h c).
Proof. destruct c; simpl; apply _. Defined.

(** No object of the heap holds a dangling reference. *)
Definition closed (h : gmap loc cell) : Prop :=
  map_Forall (λ _ c, cell_closed h c) h.

#[global] Instance closed_dec h : Decision (closed h).
Proof. unfold closed. apply _. Defined.

(** ** Worlds that only grow *)

(** [w'] is [w] with more objects and a longer trace, and nothing else
    changed: what every extension step of the mount callback does. *)
Record grows (w w' : World) (t : list event) : Prop := mkGrows {
  grows_heap : heap w ⊆ heap w';
  grows_refs : refs w' = refs w;
  grows_mounted : mountedHooks w' = mountedHooks w;
  grows_beforeUnmount : beforeUnmountHooks w' = beforeUnmountHooks w;
  grows_watchers : watchers w' = watchers w;
  grows_trace : trace w' = trace w ++ t;
  grows_next_id : next_id w' = next_id w;
  grows_in_setup : in_setup w' = in_setup w
}.

(** ** What the mount callback reads from the configuration *)

(** The conditions of the callback as functions of the heap it starts
    from. *)
Section Reads.

Variable h : gmap loc cell.
Variable config : value.

(** [config.scroll?.element === window] *)
Definition page_wanted : bool :=
  JS.strict_eq (JS.opt_prop h (JS.opt_prop h config "scroll") "element") VWindow.

(** [config.adapter] *)
Definition async_wanted : bool := JS.truthy (JS.opt_prop h config "adapter").

(** [{ adapter: config.adapter, ...(config.loading && { loading:
    config.loading }) }] *)
Definition async_options : gmap string value :=
  if JS.truthy (JS.opt_prop h config "loading")
  then <["loading" := JS.opt_prop h config "loading"]>
         {["adapter" := JS.opt_prop h config "adapter"]}
  else {["adapter" := JS.opt_prop h config "adapter"]}.

(** [config.layout === "grid" && config.grid] *)
Definition grid_wanted : bool :=
  JS.strict_eq (JS.opt_prop h config "layout") (VStr "grid")
  && JS.truthy (JS.opt_prop h config "grid").

(** [config.groups] *)
Definition sections_wanted : bool := JS.truthy (JS.opt_prop h config "groups").

(** [config.selection?.mode || "none"] *)
Definition selectionMode : value :=
  let mode := JS.opt_prop h (JS.opt_prop h config "selection") "mode" in
  if JS.truthy mode then mode else VStr "none".

(** [config.scroll?.scrollbar || config.scrollbar] *)
Definition scrollbarConfig : value :=
  let s := JS.opt_prop h (JS.opt_prop h config "scroll") "scrollbar" in
  if JS.truthy s then s else JS.opt_prop h config "scrollbar".

End Reads.

(** [builder] after [.use(p)] for every [p] of [ps], in order. *)
Definition plus (b : Builder) (ps : list extension) : Builder :=
  mkBuilder (b_config b) (b_plugins b ++ ps).

(** The configuration the callback works on: an object of a closed heap
    [h0] that the current heap extends. *)
Record based (h0 : gmap loc cell) (config : value) (w : World) : Prop := mkBased {
  based_closed : closed h0;
  based_config : allocated h0 config;
  based_object : JS.nullish config = false;
  based_heap : h0 ⊆ heap w
}.

(** ** What each extension step leaves behind *)

Section Facts.

Variable user_fn : nat → list value → value.
Variable h0 : gmap loc cell.
Variable config : value.

Definition async_fact (ps : list extension) (h : gmap loc cell) : Prop :=
  if async_wanted h0 config then
    ∃ l, ps = [withAsync (VObject l)] ∧ h0 !! l = None
         ∧ h !! l = Some (Obj (async_options h0 config))
  else ps = [].

Definition grid_plugins : list extension :=
  if grid_wanted h0 config then [withGrid (JS.opt_prop h0 config "grid")] else [].

(** The header height the second copy forwards, and the call it makes to
    get it. *)
Definition resolved_headerHeight : value :=
  match JS.opt_prop h0 (JS.opt_prop h0 config "groups") "headerHeight" with
  | VFunction f => user_fn f [VStr ""; VNum 0]
  | v => v
  end.

Definition headerHeight_calls : list event :=
  match JS.opt_prop h0 (JS.opt_prop h0 config "groups") "headerHeight" with
  | VFunction f => [Ecall f [VStr ""; VNum 0]]
  | _ => []
  end.

Definition sections_options : gmap string value :=
  let groups := JS.opt_prop h0 config "groups" in
  let o := <["headerTemplate" := JS.opt_prop h0 groups "headerTemplate"]>
             (<["headerHeight" := resolved_headerHeight]>
                {["getGroupForIndex" := JS.opt_prop h0 groups "getGroupForIndex"]}) in
  if negb (JS.strict_eq (JS.opt_prop h0 groups "sticky") VUndefined)
  then <["sticky" := JS.opt_prop h0 groups "sticky"]> o
  else o.

Definition sections_fact (c : Copy) (ps : list extension) (calls : list event)
    (h : gmap loc cell) : Prop :=
  if sections_wanted h0 config then
    match c with
    | SrcIndex => ps = [withSections (JS.opt_prop h0 config "groups")] ∧ calls = []
    | Part002 =>
        ∃ l, ps = [withSections (VObject l)] ∧ h0 !! l = None
             ∧ h !! l = Some (Obj sections_options)
             ∧ calls = headerHeight_calls
    end
  else ps = [] ∧ calls = [].

Definition selection_fact (options : value) (h : gmap loc cell) : Prop :=
  if negb (JS.strict_eq (selectionMode h0 config) (VStr "none")) then
    options = JS.opt_prop h0 config "selection"
  else
    ∃ l, options = VObject l ∧ h0 !! l = None
         ∧ h !! l = Some (Obj {["mode" := VStr "none"]}).

Definition scrollbar_fact (ps : list extension) (h : gmap loc cell) : Prop :=
  if JS.strict_eq (scrollbarConfig h0 config) (VStr "none") then ps = []
  else if String.eqb (JS.typeof (scrollbarConfig h0 config)) "object" then
    ps = [withScrollbar (scrollbarConfig h0 config)]
  else
    ∃ l, ps = [withScrollbar (VObject l)] ∧ h0 !! l = None ∧ h !! l = Some (Obj ∅).

End Facts.

(** ** The mount callback as a whole *)

(** [unref(configInput)] in a world. *)
Definition config_of (w : World) (configInput : ConfigInput) : value :=
  match configInput with
  | Plain config => config
  | Reactive r => ref_value w r
  end.

Definition page_plugins (h : gmap loc cell) (config : value) : list extension :=
  if page_wanted h config then [withPage] else [].

(** The extensions of a finished builder, given the four parts that depend
    on newly made objects. *)
Definition plugins_of (h : gmap loc cell) (config : value)
    (ps_async ps_sections : list extension) (selection : value)
    (ps_scrollbar : list extension) : list extension :=
  page_plugins h config ++ ps_async ++ grid_plugins h config ++ ps_sections
  ++ [withSelection selection; withScale] ++ ps_scrollbar ++ [withSnapshots].

(** Everything the callback did, from [w] to [w'], on a configuration
    [config] with the container [container]. *)
Record mounted (user_fn : nat → list value → value) (c : Copy)
    (container config : value) (instance : nat) (w w' : World)
    (seed : loc) (ps_async ps_sections : list extension) (calls : list event)
    (selection : value) (ps_scrollbar : list extension) : Prop := mkMounted {
  m_heap : heap w ⊆ heap w';
  m_seed_fresh : heap w !! seed = None;
  m_seed : heap w' !! seed
           = Some (Obj (<["container" := container]> (JS.own_props (heap w) config)));
  m_refs : refs w' = <[instance := VInstance (next_id w)]> (refs w);
  m_next_id : next_id w' = S (next_id w);
  m_mounted : mountedHooks w' = mountedHooks w;
  m_beforeUnmount : beforeUnmountHooks w' = beforeUnmountHooks w;
  m_watchers : watchers w' = watchers w;
  m_in_setup : in_setup w' = in_setup w;
  m_trace :
    trace w' =
    trace w
    ++ Evlist (VObject seed)
       :: map Euse (page_plugins (heap w) config ++ ps_async ++ grid_plugins (heap w) config)
       ++ calls
       ++ map Euse (ps_sections ++ [withSelection selection; withScale]
                    ++ ps_scrollbar ++ [withSnapshots])
       ++ [Ebuild (next_id w)
             (mkBuilder (VObject seed)
                (plugins_of (heap w) config ps_async ps_sections selection ps_scrollbar))];
  m_async : async_fact (heap w) config ps_async (heap w');
  m_sections : sections_fact user_fn (heap w) config c ps_sections calls (heap w');
  m_selection : selection_fact (heap w) config selection (heap w');
  m_scrollbar : scrollbar_fact (heap w) config ps_scrollbar (heap w')
}.

(** ** Reading traces *)

(** The extensions applied, the instances built and the instances
    destroyed in a stretch of trace, in order. *)
Definition uses (t : list event) : list extension :=
  omap (λ e, match e with Euse p => Some p | _ => None end) t.

Definition builds (t : list event) : list nat :=
  omap (λ e, match e with Ebuild i _ => Some i | _ => None end) t.

Definition destroys (t : list event) : list nat :=
  omap (λ e, match e with Edestroy i => Some i | _ => None end) t.

(** Calls of user functions. *)
Definition user_calls (t : list event) : list (nat * list value) :=
  omap (λ e, match e with Ecall f args => Some (f, args) | _ => None end) t.

Definition is_use_or_call (e : event) : Prop :=
  match e with Euse _ | Ecall _ _ => True | _ => False end.

(** ** The order of the extensions *)

Inductive kind :=
| Page | Async | Grid | Sections | Selection | Scale | Scrollbar | Snapshots.

Definition kind_of (p : extension) : kind :=
  match p with
  | withPage => Page
  | withAsync _ => Async
  | withGrid _ => Grid
  | withSections _ => Sections
  | withSelection _ => Selection
  | withScale => Scale
  | withScrollbar _ => Scrollbar
  | withSnapshots => Snapshots
  end.

(** The order in which the callback considers the extensions. *)
Definition fixed_order : list kind :=
  [Page; Async; Grid; Sections; Selection; Scale; Scrollbar; Snapshots].

(** Whether a configuration asks for an extension. *)
Definition wanted (h : gmap loc cell) (config : value) (k : kind) : bool :=
  match k with
  | Page => page_wanted h config
  | Async => async_wanted h config
  | Grid => grid_wanted h config
  | Sections => sections_wanted h config
  | Scrollbar => negb (JS.strict_eq (scrollbarConfig h config) (VStr "none"))
  | Selection | Scale | Snapshots => true
  end.

#[global] Instance kind_eq_dec : EqDecision kind.
Proof. solve_decision. Defined.

Definition of_kind (k : kind) (p : extension) : bool :=
  bool_decide (kind_of p = k).

(** ** Item sync *)

(** An array without elements. *)
Definition empty_collection (h : gmap loc cell) (v : value) : Prop :=
  ∃ l, v = VObject l ∧ h !! l = Some (Arr []).

(** The calls one reaction of the item observer makes. *)
Definition sync_calls (w : World) (instance : nat) (newItems : value) : list event :=
  match ref_value w instance with
  | VInstance i => if JS.truthy newItems then [EsetItems i newItems] else []
  | _ => []
  end.

(** ** Concrete worlds *)

Module Examples.

(** User functions: function 7 is a header height that answers 32. *)
Definition fns (f : nat) (args : list value) : value :=
  if Nat.eqb f 7 then VNum 32 else VUndefined.

(** [{ item: { height: 48, template: f }, items: [a, b, c] }], the
    container cell 0 bound to an element, the instance cell 1 empty. *)
Definition plain_heap : gmap loc cell :=
  {[ 1%positive := Obj {[ "item" := VObject 2%positive; "items" := VObject 3%positive ]};
     2%positive := Obj {[ "height" := VNum 48; "template" := VFunction 0 ]};
     3%positive := Arr [VStr "a"; VStr "b"; VStr "c"] ]}.

Definition plain_world : World :=
  mkWorld plain_heap {[ 0 := VElement 0; 1 := VNull ]} [] [] [] [] 0 false.

(** The same with [groups: { getGroupForIndex, headerHeight,
    headerTemplate }], [headerHeight] being function 7, a selection in
    mode ["single"] and [scroll: { scrollbar: "none" }]. *)
Definition grouped_heap : gmap loc cell :=
  {[ 1%positive := Obj {[ "item" := VObject 2%positive; "items" := VObject 3%positive;
                          "groups" := VObject 4%positive;
                          "selection" := VObject 5%positive;
                          "scroll" := VObject 6%positive ]};
     2%positive := Obj {[ "height" := VNum 48; "template" := VFunction 0 ]};
     3%positive := Arr [VStr "a"; VStr "b"; VStr "c"];
     4%positive := Obj {[ "getGroupForIndex" := VFunction 5;
                          "headerHeight" := VFunction 7;
                          "headerTemplate" := VFunction 6 ]};
     5%positive := Obj {[ "mode" := VStr "single" ]};
     6%positive := Obj {[ "scrollbar" := VStr "none" ]} ]}.

Definition grouped_world : World :=
  mkWorld grouped_heap {[ 0 := VElement 0; 1 := VNull ]} [] [] [] [] 0 false.

(** A world in which instance 0 is published in cell 1. *)
Definition live_world : World :=
  mkWorld plain_heap {[ 0 := VElement 0; 1 := VInstance 0 ]} [] [] [] [] 1 false.

(** A world in which nothing is mounted: the container cell is empty. *)
Definition unmounted_world : World :=
  mkWorld plain_heap {[ 0 := VNull; 1 := VNull ]} [] [] [] [] 0 false.

Definition trace_of {A} (o : Outcome A) : option (list event) :=
  match o with
  | Ok _ w => Some (trace w)
  | Throw _ _ => None
  end.

(** A component whose [setup] calls [useVList] on a reactive
    configuration and [useVListEvent] before anything is mounted; the
    host binds the container, mounts, lets the observers react, the
    configuration is replaced by one whose [items] is an empty array
    (object 9 of [setup_world], array 10), the observers react again,
    and the host unmounts. *)
Definition component : M unit :=
  '(config, containerRef) ← Vue.setup (
    config ← Vue.ref (VObject 1%positive);
    '(containerRef, instance) ← useVList Part002 (Reactive config);
    useVListEvent instance "scroll" (VFunction 9);;
    mret (config, containerRef));
  Vue.write containerRef (VElement 0);;
  mount fns;;
  flush;;
  Vue.write config (VObject 9%positive);;
  flush;;
  unmount fns.

Definition setup_world : World :=
  mkWorld (<[9%positive := Obj {[ "items" := VObject 10%positive ]}]>
             (<[10%positive := Arr []]> plain_heap))
    ∅ [] [] [] [] 0 false.

End Examples.

(** * Further vocabulary *)

(** ** Scenarios of a host component *)

(** A component whose [setup] calls [useVList]; the host binds the
    container to [container] and gives the mount signal. *)
Definition mounted_component (user_fn : nat → list value → value) (c : Copy)
    (configInput : ConfigInput) (container : value) : M (nat * nat) :=
  '(containerRef, instance) ← Vue.setup (useVList c configInput);
  Vue.write containerRef container;;
  mount user_fn;;
  mret (containerRef, instance).

(** The same component, mounted and then unmounted. *)
Definition lifecycle (user_fn : nat → list value → value) (c : Copy)
    (configInput : ConfigInput) (container : value) : M nat :=
  '(containerRef, instance) ← mounted_component user_fn c configInput container;
  unmount user_fn;;
  mret instance.

(** ** Computations that only apply extensions *)

(** On a world based on [h0] the computation returns, and all it did was
    make objects and call [use] or user functions. *)
Definition quiet {A} (h0 : gmap loc cell) (config : value) (m : M A) : Prop :=
  ∀ w, based h0 config w →
    ∃ a w' t, m w = Ok a w' ∧ grows w w' t ∧ Forall is_use_or_call t.

(** The same, ending with [build] and the publication of the built
    instance in the cell [instance]. *)
Definition finishing (h0 : gmap loc cell) (config : value) (instance : nat)
    (m : M unit) : Prop :=
  ∀ w, based h0 config w →
    ∃ w' t b,
      m w = Ok tt w'
      ∧ heap w ⊆ heap w'
      ∧ refs w' = <[instance := VInstance (next_id w)]> (refs w)
      ∧ next_id w' = S (next_id w)
      ∧ mountedHooks w' = mountedHooks w
      ∧ beforeUnmountHooks w' = beforeUnmountHooks w
      ∧ watchers w' = watchers w
      ∧ in_setup w' = in_setup w
      ∧ trace w' = trace w ++ t ++ [Ebuild (next_id w) b]
      ∧ Forall is_use_or_call t.

(** A configuration input [useVList] can set up its observer on: a plain
    value, or a cell that exists and holds neither [null] nor
    [undefined]. *)
Definition setup_ok (w : World) (configInput : ConfigInput) : Prop :=
  match configInput with
  | Plain _ => True
  | Reactive r => is_Some (refs w !! r) ∧ JS.nullish (ref_value w r) = false
  end.

(** The observers [useVList] installs. *)
Definition items_watchers (w : World) (configInput : ConfigInput) (instance : nat)
    : list watcher :=
  match configInput with
  | Plain _ => []
  | Reactive r =>
      [mkWatcher (ItemsOf r) (SyncItems instance)
         (JS.opt_prop (heap w) (ref_value w r) "items")]
  end.

(** ** An instance reference over time *)

(** The host writes the values [vs] into the cell [r], one after the
    other, and lets the observers react after each. *)
Fixpoint drive (r : nat) (vs : list value) : M unit :=
  match vs with
  | [] => mret tt
  | v :: vs' => Vue.write r v;; flush;; drive r vs'
  end.

(** What an instance reference may hold: nothing, or an instance. *)
Definition instance_or_empty (v : value) : Prop :=
  JS.truthy v = false ∨ ∃ i, v = VInstance i.

(** The instances an observer sights in [vs] after having seen [last]:
    each value that is an instance and differs from the one before. *)
Fixpoint sightings (last : value) (vs : list value) : list nat :=
  match vs with
  | [] => []
  | v :: vs' =>
      match v with
      | VInstance i =>
          if bool_decide (v = last) then sightings v vs' else i :: sightings v vs'
      | _ => sightings v vs'
      end
  end.

(** One [on] per sighted instance, the subscriptions named from [n] on. *)
Fixpoint registrations (name : string) (handlerRef : nat) (n : nat) (seen : list nat)
    : list event :=
  match seen with
  | [] => []
  | i :: seen' =>
      Eon i name (Wrapped handlerRef) n :: registrations name handlerRef (S n) seen'
  end.

(** A component whose [setup] calls [useVList] on a plain configuration
    and subscribes to an event of the list; its container is bound, it
    is mounted, the observers react, and it is unmounted. *)
Definition list_with_event (user_fn : nat → list value → value) (c : Copy)
    (config container : value) (name : string) (handler : value) : M unit :=
  '(containerRef, instance) ← Vue.setup (
    '(containerRef, instance) ← useVList c (Plain config);
    useVListEvent instance name handler;;
    mret (containerRef, instance));
  Vue.write containerRef container;;
  mount user_fn;;
  flush;;
  unmount user_fn.

(** A component whose [setup] calls [useVList] on the reactive
    configuration in cell [r]; before it is mounted the configuration is
    replaced by [config']. *)
Definition mount_after_replacing (user_fn : nat → list value → value) (c : Copy)
    (r : nat) (config' container : value) : M nat :=
  '(containerRef, instance) ← Vue.setup (useVList c (Reactive r));
  Vue.write r config';;
  Vue.write containerRef container;;
  mount user_fn;;
  mret instance.

(** ** More concrete worlds *)

Module MoreExamples.

(** A configuration with every optional field: [scroll: { element:
    window }], an [adapter] with a [loading] configuration, and the grid
    layout with its parameters. *)
Definition full_heap : gmap loc cell :=
  {[ 1%positive := Obj {[ "item" := VObject 2%positive; "items" := VObject 3%positive;
                          "scroll" := VObject 4%positive;
                          "adapter" := VObject 5%positive;
                          "loading" := VObject 6%positive;
                          "layout" := VStr "grid";
                          "grid" := VObject 7%positive ]};
     2%positive := Obj {[ "height" := VNum 48; "template" := VFunction 0 ]};
     3%positive := Arr [];
     4%positive := Obj {[ "element" := VWindow ]};
     5%positive := Obj {[ "read" := VFunction 1 ]};
     6%positive := Obj {[ "cancelThreshold" := VNum 25 ]};
     7%positive := Obj {[ "columns" := VNum 3 ]} ]}.

Definition full_world : World :=
  mkWorld full_heap {[ 0 := VElement 0; 1 := VNull ]} [] [] [] [] 0 false.

(** A component whose cell 5 holds a configuration (object 2 of the
    grouped heap), before [useVList] is called. *)
Definition reactive_world : World :=
  mkWorld Examples.grouped_heap {[ 5 := VObject 2%positive ]} [] [] [] [] 0 false.

End MoreExamples.

(** * Verification *)

(** ** JavaScript values *)

Example truthy_empty_array : JS.truthy (VObject 1%positive) = true.
Proof. reflexivity. Qed.

Example typeof_null : JS.typeof VNull = "object".
Proof. reflexivity. Qed.

Example prop_computes :
  JS.prop {[ 1%positive := Obj {[ "mode" := VStr "single" ]} ]} (VObject 1%positive) "mode"
  = Some (VStr "single").
Proof. vm_compute. reflexivity. Qed.

(** ** Well-formed heaps *)

Lemma prop_weaken (h h' : gmap loc cell) v k :
  h ⊆ h' → allocated h v → JS.prop h' v k = JS.prop h v k.
Proof.
  intros Hsub Hv. destruct v; simpl in *; try done.
  destruct Hv as [c Hc]. by rewrite Hc, (lookup_weaken _ _ _ _ Hc Hsub).
Qed.

Lemma opt_prop_weaken (h h' : gmap loc cell) v k :
  h ⊆ h' → allocated h v → JS.opt_prop h' v k = JS.opt_prop h v k.
Proof. intros. unfold JS.opt_prop. by rewrite (prop_weaken h h'). Qed.

Lemma own_props_weaken (h h' : gmap loc cell) v :
  h ⊆ h' → allocated h v → JS.own_props h' v = JS.own_props h v.
Proof.
  intros Hsub Hv. destruct v; simpl in *; try done.
  destruct Hv as [c Hc]. by rewrite Hc, (lookup_weaken _ _ _ _ Hc Hsub).
Qed.

Lemma closed_opt_prop (h : gmap loc cell) v k :
  closed h → allocated h v → allocated h (JS.opt_prop h v k).
Proof.
  intros Hcl Hv. destruct v; simpl in *; try done.
  destruct Hv as [c Hc]. unfold JS.opt_prop. simpl. rewrite Hc. simpl.
  specialize (Hcl _ _ Hc). destruct c as [m|xs]; simpl in *; [|done].
  destruct (m !! k) as [x|] eqn:Hx; simpl; [|done].
  by eapply (Hcl k x).
Qed.

Lemma prop_opt_prop (h : gmap loc cell) v k :
  JS.nullish v = false → JS.prop h v k = Some (JS.opt_prop h v k).
Proof. unfold JS.opt_prop. by destruct v. Qed.

Lemma truthy_not_nullish v : JS.truthy v = true → JS.nullish v = false.
Proof. by destruct v. Qed.

(** ** Worlds that only grow *)

Lemma grows_refl w : grows w w [].
Proof. split; try done. by rewrite app_nil_r. Qed.

Lemma grows_trans w1 w2 w3 t1 t2 :
  grows w1 w2 t1 → grows w2 w3 t2 → grows w1 w3 (t1 ++ t2).
Proof.
  intros [] []. split; try congruence.
  - by etrans.
  - rewrite app_assoc. congruence.
Qed.

Lemma fresh_loc_unused (h : gmap loc cell) : h !! fresh (dom h) = None.
Proof. apply not_elem_of_dom, is_fresh. Qed.

Lemma new_object_grows m w :
  ∃ l w', new_object m w = Ok (VObject l) w' ∧ grows w w' []
          ∧ heap w !! l = None ∧ heap w' !! l = Some (Obj m).
Proof.
  eexists _, _. split; [reflexivity|].
  pose proof (fresh_loc_unused (heap w)) as Hf.
  split; [|split]; [|done|by simpl; rewrite lookup_insert_eq].
  split; simpl; try done.
  - by apply insert_subseteq.
  - by rewrite app_nil_r.
Qed.

Lemma use_grows b p w :
  ∃ w', Engine.use b p w = Ok (mkBuilder (b_config b) (b_plugins b ++ [p])) w'
        ∧ grows w w' [Euse p].
Proof. eexists. split; [reflexivity|]. by split. Qed.

Lemma bind_Ok {A B} (m : M A) (f : A → M B) w a w' :
  m w = Ok a w' → (m ≫= f) w = f a w'.
Proof. intros H. unfold mbind, M_bind. by rewrite H. Qed.

Lemma get_Ok (h0 : gmap loc cell) v k w :
  h0 ⊆ heap w → allocated h0 v → JS.nullish v = false →
  get v k w = Ok (JS.opt_prop h0 v k) w.
Proof.
  intros Hsub Hv Hn. unfold get.
  by rewrite (prop_weaken h0), (prop_opt_prop h0).
Qed.

Lemma get_opt_Ok (h0 : gmap loc cell) v k w :
  h0 ⊆ heap w → allocated h0 v →
  get_opt v k w = Ok (JS.opt_prop h0 v k) w.
Proof.
  intros Hsub Hv. unfold get_opt, gets. by rewrite (opt_prop_weaken h0).
Qed.

Lemma plus_nil b : plus b [] = b.
Proof. destruct b. unfold plus. simpl. by rewrite app_nil_r. Qed.

Lemma based_grows h0 config w w' t :
  based h0 config w → grows w w' t → based h0 config w'.
Proof. intros [] []. split; try done. by etrans. Qed.

Lemma get_config h0 config w k :
  based h0 config w → get config k w = Ok (JS.opt_prop h0 config k) w.
Proof. intros []. by apply get_Ok. Qed.

Lemma get_opt_field h0 config w k k' :
  based h0 config w →
  get_opt (JS.opt_prop h0 config k) k' w
  = Ok (JS.opt_prop h0 (JS.opt_prop h0 config k) k') w.
Proof. intros []. apply get_opt_Ok; [done|]. by apply closed_opt_prop. Qed.

Lemma get_field h0 config w k k' :
  based h0 config w → JS.truthy (JS.opt_prop h0 config k) = true →
  get (JS.opt_prop h0 config k) k' w
  = Ok (JS.opt_prop h0 (JS.opt_prop h0 config k) k') w.
Proof.
  intros [] Ht. apply get_Ok; [done| |by apply truthy_not_nullish].
  by apply closed_opt_prop.
Qed.

(** ** The extension steps *)

Section Steps.

Variable user_fn : nat → list value → value.
Variable h0 : gmap loc cell.
Variable config : value.

Lemma attachPage_grows b w :
  based h0 config w →
  let ps := if page_wanted h0 config then [withPage] else [] in
  ∃ w', attachPage config b w = Ok (plus b ps) w' ∧ grows w w' (map Euse ps).
Proof.
  intros Hb ps. unfold attachPage.
  rewrite (bind_Ok _ _ _ _ _ (get_config _ _ _ "scroll" Hb)).
  rewrite (bind_Ok _ _ _ _ _ (get_opt_field _ _ _ "scroll" "element" Hb)).
  subst ps. unfold page_wanted.
  destruct (JS.strict_eq _ VWindow).
  - apply use_grows.
  - exists w. rewrite plus_nil. split; [done|apply grows_refl].
Qed.

Lemma async_fact_weaken ps h h' :
  h ⊆ h' → async_fact h0 config ps h → async_fact h0 config ps h'.
Proof.
  unfold async_fact. intros Hsub. destruct (async_wanted h0 config); [|done].
  intros (l & ? & ? & Hl). exists l. eauto using lookup_weaken.
Qed.

Lemma sections_fact_weaken c ps calls h h' :
  h ⊆ h' →
  sections_fact user_fn h0 config c ps calls h →
  sections_fact user_fn h0 config c ps calls h'.
Proof.
  unfold sections_fact. intros Hsub.
  destruct (sections_wanted h0 config), c; try done.
  intros (l & ? & ? & Hl & ?). exists l. eauto using lookup_weaken.
Qed.

Lemma selection_fact_weaken o h h' :
  h ⊆ h' → selection_fact h0 config o h → selection_fact h0 config o h'.
Proof.
  unfold selection_fact. intros Hsub. destruct (negb _); [done|].
  intros (l & ? & ? & Hl). exists l. eauto using lookup_weaken.
Qed.

Lemma scrollbar_fact_weaken ps h h' :
  h ⊆ h' → scrollbar_fact h0 config ps h → scrollbar_fact h0 config ps h'.
Proof.
  unfold scrollbar_fact. intros Hsub.
  destruct (JS.strict_eq _ _); [done|]. destruct (String.eqb _ _); [done|].
  intros (l & ? & ? & Hl). exists l. eauto using lookup_weaken.
Qed.

(** A new object, then [.use] of an extension made from it. *)
Lemma new_object_use (mk : value → extension) m b w :
  based h0 config w →
  ∃ l w', (options ← new_object m; Engine.use b (mk options)) w
          = Ok (plus b [mk (VObject l)]) w'
          ∧ grows w w' [Euse (mk (VObject l))]
          ∧ h0 !! l = None ∧ heap w' !! l = Some (Obj m).
Proof.
  intros Hb.
  destruct (new_object_grows m w) as (l & w1 & Hnew & Hg1 & Hfresh & Hl).
  destruct (use_grows b (mk (VObject l)) w1) as (w2 & Huse & Hg2).
  exists l, w2. rewrite (bind_Ok _ _ _ _ _ Hnew), Huse.
  split; [done|]. split; [apply (grows_trans _ _ _ _ _ Hg1 Hg2)|]. split.
  - eapply lookup_weaken_None; [exact Hfresh|apply Hb].
  - eapply lookup_weaken; [exact Hl|apply Hg2].
Qed.

Lemma attachAsync_grows b w :
  based h0 config w →
  ∃ ps w', attachAsync config b w = Ok (plus b ps) w'
           ∧ grows w w' (map Euse ps) ∧ async_fact h0 config ps (heap w').
Proof.
  intros Hb. unfold attachAsync, async_fact, async_wanted, async_options.
  rewrite (bind_Ok _ _ _ _ _ (get_config _ _ _ "adapter" Hb)).
  destruct (JS.truthy (JS.opt_prop h0 config "adapter")).
  - rewrite (bind_Ok _ _ _ _ _ (get_config _ _ _ "adapter" Hb)).
    rewrite (bind_Ok _ _ _ _ _ (get_config _ _ _ "loading" Hb)).
    destruct (JS.truthy (JS.opt_prop h0 config "loading")).
    + destruct (new_object_use withAsync
                  (<["loading" := JS.opt_prop h0 config "loading"]>
                     {["adapter" := JS.opt_prop h0 config "adapter"]}) b w Hb)
        as (l & w' & Hrun & Hg & Hf & Hl).
      exists [withAsync (VObject l)], w'. split; [|split; [done|by exists l]].
      rewrite <- Hrun. unfold mbind, M_bind.
      by rewrite (get_config _ _ _ "loading" Hb).
    + destruct (new_object_use withAsync
                  {["adapter" := JS.opt_prop h0 config "adapter"]} b w Hb)
        as (l & w' & Hrun & Hg & Hf & Hl).
      exists [withAsync (VObject l)], w'. split; [|split; [done|by exists l]].
      by rewrite <- Hrun.
  - exists [], w. rewrite plus_nil. split; [done|]. split; [apply grows_refl|done].
Qed.

Lemma attachGrid_grows b w :
  based h0 config w →
  ∃ w', attachGrid config b w = Ok (plus b (grid_plugins h0 config)) w'
        ∧ grows w w' (map Euse (grid_plugins h0 config)).
Proof.
  intros Hb. unfold attachGrid, grid_plugins, grid_wanted.
  rewrite (bind_Ok _ _ _ _ _ (get_config _ _ _ "layout" Hb)).
  destruct (JS.strict_eq _ (VStr "grid")); simpl.
  - rewrite (bind_Ok _ _ _ _ _ (get_config _ _ _ "grid" Hb)).
    destruct (JS.truthy (JS.opt_prop h0 config "grid")).
    + rewrite (bind_Ok _ _ _ _ _ (get_config _ _ _ "grid" Hb)). apply use_grows.
    + exists w. rewrite plus_nil. split; [done|apply grows_refl].
  - exists w. rewrite plus_nil. split; [done|apply grows_refl].
Qed.

Lemma attachSelection_grows b w :
  based h0 config w →
  ∃ options w', attachSelection config b w = Ok (plus b [withSelection options]) w'
                ∧ grows w w' [Euse (withSelection options)]
                ∧ selection_fact h0 config options (heap w').
Proof.
  intros Hb. unfold attachSelection, selection_fact, selectionMode.
  rewrite (bind_Ok _ _ _ _ _ (get_config _ _ _ "selection" Hb)).
  rewrite (bind_Ok _ _ _ _ _ (get_opt_field _ _ _ "selection" "mode" Hb)).
  cbv zeta. destruct (negb _).
  - rewrite (bind_Ok _ _ _ _ _ (get_config _ _ _ "selection" Hb)).
    destruct (use_grows b (withSelection (JS.opt_prop h0 config "selection")) w)
      as (w' & Huse & Hg).
    by exists (JS.opt_prop h0 config "selection"), w'.
  - destruct (new_object_use withSelection {["mode" := VStr "none"]} b w Hb)
      as (l & w' & Hrun & Hg & Hf & Hl).
    exists (VObject l), w'. split_and!; [done..|]. by exists l.
Qed.

Lemma attachScrollbar_grows b w :
  based h0 config w →
  ∃ ps w', attachScrollbar config b w = Ok (plus b ps) w'
           ∧ grows w w' (map Euse ps) ∧ scrollbar_fact h0 config ps (heap w').
Proof.
  intros Hb. unfold attachScrollbar, scrollbar_fact, scrollbarConfig.
  rewrite (bind_Ok _ _ _ _ _ (get_config _ _ _ "scroll" Hb)).
  rewrite (bind_Ok _ _ _ _ _ (get_opt_field _ _ _ "scroll" "scrollbar" Hb)).
  cbv zeta.
  set (s := JS.opt_prop h0 (JS.opt_prop h0 config "scroll") "scrollbar").
  assert ((if JS.truthy s then mret s else get config "scrollbar") w
          = Ok (if JS.truthy s then s else JS.opt_prop h0 config "scrollbar") w) as Hsc.
  { destruct (JS.truthy s); [done|]. by apply get_config. }
  rewrite (bind_Ok _ _ _ _ _ Hsc).
  set (sc := if JS.truthy s then s else JS.opt_prop h0 config "scrollbar").
  destruct (JS.strict_eq sc (VStr "none")); simpl.
  - exists [], w. rewrite plus_nil. split; [done|]. split; [apply grows_refl|done].
  - destruct (String.eqb (JS.typeof sc) "object").
    + destruct (use_grows b (withScrollbar sc) w) as (w' & Huse & Hg).
      by exists [withScrollbar sc], w'.
    + destruct (new_object_use withScrollbar ∅ b w Hb)
        as (l & w' & Hrun & Hg & Hf & Hl).
      exists [withScrollbar (VObject l)], w'. split_and!; [done..|]. by exists l.
Qed.

Lemma headerHeight_grows w :
  based h0 config w → sections_wanted h0 config = true →
  let groupsConfig := JS.opt_prop h0 config "groups" in
  let h := JS.opt_prop h0 groupsConfig "headerHeight" in
  ∃ w', (if String.eqb (JS.typeof h) "function" then
           f ← get groupsConfig "headerHeight";
           call user_fn f [VStr ""; VNum 0]
         else get groupsConfig "headerHeight") w
        = Ok (resolved_headerHeight user_fn h0 config) w'
        ∧ grows w w' (headerHeight_calls h0 config).
Proof.
  intros Hb Hw groupsConfig h.
  pose proof (get_field _ _ _ "groups" "headerHeight" Hb Hw) as Hget.
  fold groupsConfig h in Hget.
  unfold resolved_headerHeight, headerHeight_calls.
  fold groupsConfig h.
  destruct h; simpl;
    try (exists w; split; [exact Hget|apply grows_refl]).
  rewrite (bind_Ok _ _ _ _ _ Hget). simpl.
  eexists. split; [reflexivity|]. by split.
Qed.

Lemma attachSections_grows c b w :
  based h0 config w →
  ∃ ps calls w', attachSections user_fn c config b w = Ok (plus b ps) w'
                 ∧ grows w w' (calls ++ map Euse ps)
                 ∧ sections_fact user_fn h0 config c ps calls (heap w').
Proof.
  intros Hb. unfold attachSections, sections_fact.
  rewrite (bind_Ok _ _ _ _ _ (get_config _ _ _ "groups" Hb)).
  fold (sections_wanted h0 config).
  destruct (sections_wanted h0 config) eqn:Hw.
  - destruct c.
    + rewrite (bind_Ok _ _ _ _ _ (get_config _ _ _ "groups" Hb)).
      destruct (use_grows b (withSections (JS.opt_prop h0 config "groups")) w)
        as (w' & Huse & Hg).
      by exists [withSections (JS.opt_prop h0 config "groups")], [], w'.
    + rewrite (bind_Ok _ _ _ _ _ (get_config _ _ _ "groups" Hb)).
      rewrite (bind_Ok _ _ _ _ _ (get_field _ _ _ "groups" "headerHeight" Hb Hw)).
      destruct (headerHeight_grows w Hb Hw) as (w1 & Hh & Hg1).
      rewrite (bind_Ok _ _ _ _ _ Hh).
      pose proof (based_grows _ _ _ _ _ Hb Hg1) as Hb1.
      rewrite (bind_Ok _ _ _ _ _ (get_field _ _ _ "groups" "getGroupForIndex" Hb1 Hw)).
      rewrite (bind_Ok _ _ _ _ _ (get_field _ _ _ "groups" "headerTemplate" Hb1 Hw)).
      rewrite (bind_Ok _ _ _ _ _ (get_field _ _ _ "groups" "sticky" Hb1 Hw)).
      destruct (new_object_use withSections (sections_options user_fn h0 config) b w1 Hb1)
        as (l & w' & Hrun & Hg & Hf & Hl).
      exists [withSections (VObject l)], (headerHeight_calls h0 config), w'.
      split; [|split; [apply (grows_trans _ _ _ _ _ Hg1 Hg)|by exists l]].
      rewrite <- Hrun. unfold sections_options.
      destruct (negb _); [|done].
      unfold mbind, M_bind.
      by rewrite (get_field _ _ _ "groups" "sticky" Hb1 Hw).
  - exists [], [], w. rewrite plus_nil. split; [done|]. split; [apply grows_refl|done].
Qed.

End Steps.

(** ** The mount callback as a whole *)

Section Mount.

Variable user_fn : nat → list value → value.

Lemma useVList_onMounted_mounted c containerRef instance configInput w :
  JS.truthy (ref_value w containerRef) = true →
  JS.nullish (config_of w configInput) = false →
  closed (heap w) → allocated (heap w) (config_of w configInput) →
  ∃ w' seed ps_async ps_sections calls selection ps_scrollbar,
    useVList_onMounted user_fn c containerRef instance configInput w = Ok tt w'
    ∧ mounted user_fn c (ref_value w containerRef) (config_of w configInput)
        instance w w' seed ps_async ps_sections calls selection ps_scrollbar.
Proof.
  intros Hcont Hobj Hcl Halloc.
  set (config := config_of w configInput) in *.
  set (container := ref_value w containerRef) in *.
  set (h0 := heap w).
  unfold useVList_onMounted.
  assert (Vue.read containerRef w = Ok container w) as Hread by done.
  rewrite (bind_Ok _ _ _ _ _ Hread), Hcont. cbn [negb].
  assert (Vue.unref configInput w = Ok config w) as Hunref
    by (by destruct configInput).
  rewrite (bind_Ok _ _ _ _ _ Hunref).
  assert (spread config w = Ok (JS.own_props h0 config) w) as Hspread by done.
  rewrite (bind_Ok _ _ _ _ _ Hspread).
  destruct (new_object_grows (<["container" := container]> (JS.own_props h0 config)) w)
    as (seed & w0 & Hnew & Hg0 & Hfresh & Hseed).
  rewrite (bind_Ok _ _ _ _ _ Hnew).
  assert (based h0 config w) as Hb by (by split).
  assert (∃ w1, Engine.vlist (VObject seed) w0 = Ok (mkBuilder (VObject seed) []) w1
                ∧ grows w0 w1 [Evlist (VObject seed)]) as (w1 & Hvlist & Hg1).
  { eexists. split; [reflexivity|]. by split. }
  rewrite (bind_Ok _ _ _ _ _ Hvlist).
  pose proof (grows_trans _ _ _ _ _ Hg0 Hg1) as G1. simpl app in G1.
  pose proof (based_grows _ _ _ _ _ Hb G1) as B1.
  set (b0 := mkBuilder (VObject seed) []).
  destruct (attachPage_grows h0 config b0 w1 B1) as (w2 & Hpage & Hg2).
  rewrite (bind_Ok _ _ _ _ _ Hpage).
  pose proof (grows_trans _ _ _ _ _ G1 Hg2) as G2.
  pose proof (based_grows _ _ _ _ _ Hb G2) as B2.
  fold (page_plugins h0 config) in *.
  match goal with
  | |- context [attachAsync config ?b] =>
      destruct (attachAsync_grows h0 config b w2 B2)
        as (ps_async & w3 & Hasync & Hg3 & Fasync)
  end.
  rewrite (bind_Ok _ _ _ _ _ Hasync).
  pose proof (grows_trans _ _ _ _ _ G2 Hg3) as G3.
  pose proof (based_grows _ _ _ _ _ Hb G3) as B3.
  match goal with
  | |- context [attachGrid config ?b] =>
      destruct (attachGrid_grows h0 config b w3 B3) as (w4 & Hgrid & Hg4)
  end.
  rewrite (bind_Ok _ _ _ _ _ Hgrid).
  pose proof (grows_trans _ _ _ _ _ G3 Hg4) as G4.
  pose proof (based_grows _ _ _ _ _ Hb G4) as B4.
  match goal with
  | |- context [attachSections user_fn c config ?b] =>
      destruct (attachSections_grows user_fn h0 config c b w4 B4)
        as (ps_sections & calls & w5 & Hsections & Hg5 & Fsections)
  end.
  rewrite (bind_Ok _ _ _ _ _ Hsections).
  pose proof (grows_trans _ _ _ _ _ G4 Hg5) as G5.
  pose proof (based_grows _ _ _ _ _ Hb G5) as B5.
  match goal with
  | |- context [attachSelection config ?b] =>
      destruct (attachSelection_grows h0 config b w5 B5)
        as (selection & w6 & Hselection & Hg6 & Fselection)
  end.
  rewrite (bind_Ok _ _ _ _ _ Hselection).
  pose proof (grows_trans _ _ _ _ _ G5 Hg6) as G6.
  match goal with
  | |- context [Engine.use ?b withScale] =>
      destruct (use_grows b withScale w6) as (w7 & Hscale & Hg7)
  end.
  rewrite (bind_Ok _ _ _ _ _ Hscale).
  pose proof (grows_trans _ _ _ _ _ G6 Hg7) as G7.
  pose proof (based_grows _ _ _ _ _ Hb G7) as B7.
  match goal with
  | |- context [attachScrollbar config ?b] =>
      destruct (attachScrollbar_grows h0 config b w7 B7)
        as (ps_scrollbar & w8 & Hscrollbar & Hg8 & Fscrollbar)
  end.
  rewrite (bind_Ok _ _ _ _ _ Hscrollbar).
  pose proof (grows_trans _ _ _ _ _ G7 Hg8) as G8.
  match goal with
  | |- context [Engine.use ?b withSnapshots] =>
      destruct (use_grows b withSnapshots w8) as (w9 & Hsnap & Hg9)
  end.
  rewrite (bind_Ok _ _ _ _ _ Hsnap).
  pose proof (grows_trans _ _ _ _ _ G8 Hg9) as G9.
  exists (set_refs (<[instance := VInstance (next_id w9)]> (refs w9))
            (set_trace (trace w9 ++ [Ebuild (next_id w9)
               (mkBuilder (VObject seed)
                  (plugins_of h0 config ps_async ps_sections selection ps_scrollbar))])
               (set_next_id (S (next_id w9)) w9))),
    seed, ps_async, ps_sections, calls, selection, ps_scrollbar.
  split.
  { unfold plugins_of, plus. simpl. rewrite <- !app_assoc. reflexivity. }
  assert (heap w8 ⊆ heap w9) as S8 by apply Hg9.
  assert (heap w6 ⊆ heap w9) as S6
    by (etrans; [apply Hg7|]; etrans; [apply Hg8|]; done).
  assert (heap w5 ⊆ heap w9) as S5 by (etrans; [apply Hg6|]; done).
  assert (heap w3 ⊆ heap w9) as S3
    by (etrans; [apply Hg4|]; etrans; [apply Hg5|]; done).
  assert (heap w0 ⊆ heap w9) as S0
    by (etrans; [apply Hg1|]; etrans; [apply Hg2|]; etrans; [apply Hg3|]; done).
  destruct G9 as [Gh Gr Gm Gu Gw Gt Gn Gs].
  split;
    first [ eapply async_fact_weaken; [exact S3|exact Fasync]
          | eapply sections_fact_weaken; [exact S5|exact Fsections]
          | eapply selection_fact_weaken; [exact S6|exact Fselection]
          | eapply scrollbar_fact_weaken; [exact S8|exact Fscrollbar]
          | simpl; rewrite ?Gr, ?Gn; try done ].
  - by eapply lookup_weaken.
  - rewrite Gt. repeat (simpl; rewrite ?map_app, <- ?app_assoc). reflexivity.
Qed.

End Mount.

(** ** Reading traces *)

Lemma uses_map_Euse ps : uses (map Euse ps) = ps.
Proof. unfold uses. induction ps as [|p ps IH]; [done|]. simpl. f_equal. exact IH. Qed.

Lemma builds_use_or_call t : Forall is_use_or_call t → builds t = [].
Proof.
  induction 1 as [|e t He _ IH]; [done|].
  unfold builds in *. by destruct e.
Qed.

Lemma Forall_map_Euse ps : Forall is_use_or_call (map Euse ps).
Proof. induction ps; by constructor. Qed.

Lemma sections_calls user_fn h config c ps calls h' :
  sections_fact user_fn h config c ps calls h' →
  Forall is_use_or_call calls ∧ uses calls = [].
Proof.
  unfold sections_fact, headerHeight_calls.
  destruct (sections_wanted h config), c;
    [intros [-> ->]|intros (l & _ & _ & _ & ->)|intros [-> ->]..]; try done.
  destruct (JS.opt_prop h _ "headerHeight"); split; try done.
  by repeat constructor.
Qed.

(** The trace of a completed mount callback: [vlist], then only [use]s and
    user calls, then [build]. *)
Lemma mounted_trace user_fn c container config instance w w'
    seed ps_async ps_sections calls selection ps_scrollbar :
  mounted user_fn c container config instance w w'
    seed ps_async ps_sections calls selection ps_scrollbar →
  let ps := plugins_of (heap w) config ps_async ps_sections selection ps_scrollbar in
  ∃ middle,
    trace w' = trace w ++ Evlist (VObject seed) :: middle
                 ++ [Ebuild (next_id w) (mkBuilder (VObject seed) ps)]
    ∧ Forall is_use_or_call middle
    ∧ uses middle = ps.
Proof.
  intros Hm ps.
  destruct (sections_calls _ _ _ _ _ _ _ (m_sections _ _ _ _ _ _ _ _ _ _ _ _ _ Hm))
    as [Hcalls Hnone].
  exists (map Euse (page_plugins (heap w) config ++ ps_async ++ grid_plugins (heap w) config)
          ++ calls
          ++ map Euse (ps_sections ++ [withSelection selection; withScale]
                       ++ ps_scrollbar ++ [withSnapshots])).
  split; [|split].
  - rewrite (m_trace _ _ _ _ _ _ _ _ _ _ _ _ _ Hm).
    do 2 f_equal. by rewrite <- !app_assoc.
  - rewrite !Forall_app. split_and!; auto using Forall_map_Euse.
  - unfold uses in *. rewrite !omap_app, Hnone.
    pose proof uses_map_Euse as Hu. unfold uses in Hu. rewrite !Hu.
    subst ps. unfold plugins_of. by rewrite <- !app_assoc.
Qed.

(** ** Mount and unmount *)

Section Lifecycle.

Variable user_fn : nat → list value → value.

(** C8. Build-on-mount with an empty container handle is a silent
    no-op: the callback returns normally and the world is the one it
    started from, so no builder was created, no extension attached, no
    instance built, and the published instance reference is what it
    was.  This holds for every configuration, also one that is not an
    object. *)
Theorem mount_without_container c containerRef instance configInput w :
  JS.truthy (ref_value w containerRef) = false →
  useVList_onMounted user_fn c containerRef instance configInput w = Ok tt w.
Proof.
  intros Hc. unfold useVList_onMounted.
  assert (Vue.read containerRef w = Ok (ref_value w containerRef) w) as Hread by done.
  by rewrite (bind_Ok _ _ _ _ _ Hread), Hc.
Qed.

(** What destroy-on-unmount does to a reference that holds [inst]. *)
Lemma useVList_onBeforeUnmount_run instance w :
  JS.nullish (ref_value w instance) = true ∨ (∃ i, ref_value w instance = VInstance i) →
  useVList_onBeforeUnmount instance w
  = Ok tt (set_refs (<[instance := VNull]> (refs w))
             (set_trace (trace w ++ match ref_value w instance with
                                    | VInstance i => [Edestroy i]
                                    | _ => []
                                    end) w)).
Proof.
  unfold useVList_onBeforeUnmount.
  assert (Vue.read instance w = Ok (ref_value w instance) w) as Hread by done.
  intros [Hn|[i Hi]].
  - rewrite (bind_Ok _ _ _ _ _ Hread), Hn.
    destruct (ref_value w instance); try done;
      unfold mbind, M_bind, mret, M_ret, Vue.write, modify; simpl;
      rewrite app_nil_r; by destruct w.
  - rewrite (bind_Ok _ _ _ _ _ Hread), Hi. done.
Qed.

Lemma ref_value_insert w r v w' :
  refs w' = <[r := v]> (refs w) → ref_value w' r = v.
Proof. intros H. unfold ref_value. by rewrite H, lookup_insert_eq. Qed.

(** C9. Destroy-on-unmount when no instance is published (a second
    unmount signal, or an unmount that no successful mount preceded)
    returns normally, calls nothing, and leaves the reference [null];
    when an instance is published it calls that instance's [destroy],
    once, and leaves the reference [null]; and running it again after
    either is the first case. *)
Theorem destroy_idempotent instance w :
  (JS.nullish (ref_value w instance) = true →
     ∃ w', useVList_onBeforeUnmount instance w = Ok tt w'
           ∧ trace w' = trace w
           ∧ ref_value w' instance = VNull)
  ∧ (∀ i, ref_value w instance = VInstance i →
       ∃ w', useVList_onBeforeUnmount instance w = Ok tt w'
             ∧ trace w' = trace w ++ [Edestroy i]
             ∧ ref_value w' instance = VNull)
  ∧ (∀ w', useVList_onBeforeUnmount instance w = Ok tt w' →
       ∃ w'', useVList_onBeforeUnmount instance w' = Ok tt w''
              ∧ trace w'' = trace w'
              ∧ ref_value w'' instance = VNull).
Proof.
  assert (∀ w0, JS.nullish (ref_value w0 instance) = true →
            ∃ w', useVList_onBeforeUnmount instance w0 = Ok tt w'
                  ∧ trace w' = trace w0 ∧ ref_value w' instance = VNull) as Hnull.
  { intros w0 Hn. eexists. split; [apply useVList_onBeforeUnmount_run; by left|].
    split; simpl.
    - destruct (ref_value w0 instance); try done; by rewrite app_nil_r.
    - by eapply ref_value_insert. }
  split; [apply Hnull|]. split.
  - intros i Hi. eexists. split; [apply useVList_onBeforeUnmount_run; eauto|].
    split; simpl; [by rewrite Hi|by eapply ref_value_insert].
  - intros w' Hrun. apply Hnull.
    assert (ref_value w' instance = VNull) as ->; [|done].
    unfold useVList_onBeforeUnmount in Hrun.
    unfold mbind, M_bind, Vue.read, gets, Vue.write, modify in Hrun.
    destruct (JS.nullish (ref_value w instance)); simpl in Hrun.
    + injection Hrun as <-. by eapply ref_value_insert.
    + destruct (Engine.destroy (ref_value w instance) w) as [[] w1|] eqn:Hd; [|done].
      injection Hrun as <-. by eapply ref_value_insert.
Qed.

End Lifecycle.

(** ** The order of the extensions *)

Lemma async_kinds h config ps h' :
  async_fact h config ps h' →
  map kind_of ps = if async_wanted h config then [Async] else [].
Proof.
  unfold async_fact. destruct (async_wanted h config); [|by intros ->].
  by intros (l & -> & _).
Qed.

Lemma sections_kinds user_fn h config c ps calls h' :
  sections_fact user_fn h config c ps calls h' →
  map kind_of ps = if sections_wanted h config then [Sections] else [].
Proof.
  unfold sections_fact. destruct (sections_wanted h config); [|by intros [-> _]].
  destruct c; [by intros [-> _]|by intros (l & -> & _)].
Qed.

Lemma scrollbar_kinds h config ps h' :
  scrollbar_fact h config ps h' →
  map kind_of ps = if JS.strict_eq (scrollbarConfig h config) (VStr "none")
                   then [] else [Scrollbar].
Proof.
  unfold scrollbar_fact. destruct (JS.strict_eq _ _); [by intros ->|].
  destruct (String.eqb _ _); [by intros ->|by intros (l & -> & _)].
Qed.

Section Order.

Variable user_fn : nat → list value → value.

(** C2. Build-on-mount calls [vlist], then [use] once for each
    extension the configuration asks for, in the order page-scroll,
    async-loading, grid-layout, section-grouping, selection, scale,
    scrollbar, snapshot (selection, scale and snapshot always, scrollbar
    unless the resolved scrollbar setting is ["none"]), then [build] as
    its last call, on a builder that carries exactly those extensions,
    and the instance it publishes is the one [build] returned. *)
Theorem extensions_in_fixed_order c containerRef instance configInput w :
  JS.truthy (ref_value w containerRef) = true →
  JS.nullish (config_of w configInput) = false →
  closed (heap w) → allocated (heap w) (config_of w configInput) →
  ∃ w' seed middle ps,
    useVList_onMounted user_fn c containerRef instance configInput w = Ok tt w'
    ∧ trace w' = trace w ++ Evlist (VObject seed) :: middle
                   ++ [Ebuild (next_id w) (mkBuilder (VObject seed) ps)]
    ∧ Forall is_use_or_call middle
    ∧ uses middle = ps
    ∧ map kind_of ps
      = List.filter (wanted (heap w) (config_of w configInput)) fixed_order
    ∧ ref_value w' instance = VInstance (next_id w).
Proof.
  intros Hc Hn Hcl Ha.
  destruct (useVList_onMounted_mounted user_fn c containerRef instance configInput w
              Hc Hn Hcl Ha)
    as (w' & seed & ps_async & ps_sections & calls & selection & ps_scrollbar & Hrun & Hm).
  destruct (mounted_trace _ _ _ _ _ _ _ _ _ _ _ _ _ Hm) as (middle & Ht & Hmid & Huses).
  exists w', seed, middle,
    (plugins_of (heap w) (config_of w configInput) ps_async ps_sections selection
       ps_scrollbar).
  split_and!; [done..| |].
  - unfold plugins_of. rewrite !map_app.
    rewrite (async_kinds _ _ _ _ (m_async _ _ _ _ _ _ _ _ _ _ _ _ _ Hm)).
    rewrite (sections_kinds _ _ _ _ _ _ _ (m_sections _ _ _ _ _ _ _ _ _ _ _ _ _ Hm)).
    rewrite (scrollbar_kinds _ _ _ _ (m_scrollbar _ _ _ _ _ _ _ _ _ _ _ _ _ Hm)).
    unfold page_plugins, grid_plugins, fixed_order, wanted. simpl.
    by destruct (page_wanted _ _), (async_wanted _ _), (grid_wanted _ _),
      (sections_wanted _ _), (JS.strict_eq _ _).
  - by eapply ref_value_insert, Hm.
Qed.

End Order.

(** ** Which options each extension receives *)

Lemma filter_of_kind_single k k' (b : bool) ps :
  map kind_of ps = (if b then [k'] else []) →
  List.filter (of_kind k) ps = if bool_decide (k' = k) then ps else [].
Proof.
  destruct b, ps as [|p [|q ps]]; simpl; try done; [|by destruct (bool_decide _)..].
  intros [= <-]. unfold of_kind. by destruct (bool_decide _).
Qed.

(** The extensions of one kind on a finished builder. *)
Lemma plugins_of_kind user_fn c container config instance w w'
    seed ps_async ps_sections calls selection ps_scrollbar :
  mounted user_fn c container config instance w w'
    seed ps_async ps_sections calls selection ps_scrollbar →
  let ps := plugins_of (heap w) config ps_async ps_sections selection ps_scrollbar in
  List.filter (of_kind Async) ps = ps_async
  ∧ List.filter (of_kind Sections) ps = ps_sections
  ∧ List.filter (of_kind Selection) ps = [withSelection selection]
  ∧ List.filter (of_kind Scrollbar) ps = ps_scrollbar.
Proof.
  intros Hm ps. subst ps. unfold plugins_of.
  pose proof (async_kinds _ _ _ _ (m_async _ _ _ _ _ _ _ _ _ _ _ _ _ Hm)) as Ka.
  pose proof (sections_kinds _ _ _ _ _ _ _ (m_sections _ _ _ _ _ _ _ _ _ _ _ _ _ Hm)) as Ks.
  pose proof (scrollbar_kinds _ _ _ _ (m_scrollbar _ _ _ _ _ _ _ _ _ _ _ _ _ Hm)) as Kb.
  assert (map kind_of (page_plugins (heap w) config)
          = if page_wanted (heap w) config then [Page] else []) as Kp
    by (unfold page_plugins; by destruct (page_wanted _ _)).
  assert (map kind_of (grid_plugins (heap w) config)
          = if grid_wanted (heap w) config then [Grid] else []) as Kg
    by (unfold grid_plugins; by destruct (grid_wanted _ _)).
  assert (map kind_of ps_scrollbar
          = if negb (JS.strict_eq (scrollbarConfig (heap w) config) (VStr "none"))
            then [Scrollbar] else []) as Kb'
    by (rewrite Kb; by destruct (JS.strict_eq _ _)).
  split_and!; rewrite !List.filter_app;
    rewrite (filter_of_kind_single _ _ _ _ Kp), (filter_of_kind_single _ _ _ _ Ka),
      (filter_of_kind_single _ _ _ _ Kg), (filter_of_kind_single _ _ _ _ Ks),
      (filter_of_kind_single _ _ _ _ Kb');
    simpl; by rewrite ?app_nil_r.
Qed.

Section Options.

Variable user_fn : nat → list value → value.

(** C5. Build-on-mount puts one selection extension on the builder.
    When [config.selection.mode] is set to something other than
    ["none"], its options are [config.selection] itself, which is left
    as it was; when the mode is ["none"], or missing, or there is no
    selection configuration, its options are a new object
    [{ mode: "none" }]. *)
Theorem selection_attached_once c containerRef instance configInput w :
  JS.truthy (ref_value w containerRef) = true →
  JS.nullish (config_of w configInput) = false →
  closed (heap w) → allocated (heap w) (config_of w configInput) →
  let selection := JS.opt_prop (heap w) (config_of w configInput) "selection" in
  let mode := JS.opt_prop (heap w) selection "mode" in
  ∃ w' b options,
    useVList_onMounted user_fn c containerRef instance configInput w = Ok tt w'
    ∧ last (trace w') = Some (Ebuild (next_id w) b)
    ∧ List.filter (of_kind Selection) (b_plugins b) = [withSelection options]
    ∧ heap w ⊆ heap w'
    ∧ (JS.truthy mode = true → mode ≠ VStr "none" → options = selection)
    ∧ (mode = VStr "none" ∨ JS.truthy mode = false ∨ JS.nullish selection = true →
         ∃ l, options = VObject l ∧ heap w !! l = None
              ∧ heap w' !! l = Some (Obj {["mode" := VStr "none"]})).
Proof.
  intros Hc Hn Hcl Ha selection mode.
  destruct (useVList_onMounted_mounted user_fn c containerRef instance configInput w
              Hc Hn Hcl Ha)
    as (w' & seed & ps_async & ps_sections & calls & sel & ps_scrollbar & Hrun & Hm).
  destruct (mounted_trace _ _ _ _ _ _ _ _ _ _ _ _ _ Hm) as (middle & Ht & _ & _).
  destruct (plugins_of_kind _ _ _ _ _ _ _ _ _ _ _ _ _ Hm) as (_ & _ & Hsel & _).
  pose proof (m_selection _ _ _ _ _ _ _ _ _ _ _ _ _ Hm) as Hf.
  unfold selection_fact, selectionMode in Hf. fold selection mode in Hf.
  exists w', (mkBuilder (VObject seed)
                (plugins_of (heap w) (config_of w configInput) ps_async ps_sections
                   sel ps_scrollbar)), sel.
  split_and!; [exact Hrun| |exact Hsel|apply Hm| |].
  - rewrite Ht, app_comm_cons, app_assoc. apply last_snoc.
  - intros Htruthy Hmode. rewrite Htruthy in Hf.
    unfold JS.strict_eq in Hf. by rewrite bool_decide_eq_false_2 in Hf.
  - intros Hnone.
    assert (JS.strict_eq (if JS.truthy mode then mode else VStr "none") (VStr "none")
            = true) as Heq.
    { unfold JS.strict_eq. apply bool_decide_eq_true_2.
      destruct Hnone as [->|[->|Hs]]; [done..|].
      subst mode. by destruct selection. }
    by rewrite Heq in Hf.
Qed.

(** C6. The scrollbar setting is [config.scroll?.scrollbar] when that is
    truthy and the top-level [config.scrollbar] otherwise.  When it is
    ["none"] the builder carries no scrollbar extension; otherwise it
    carries one, whose options are the setting itself when [typeof]
    says ["object"] and a new empty object when not (so also when both
    options are absent). *)
Theorem scrollbar_resolution c containerRef instance configInput w :
  JS.truthy (ref_value w containerRef) = true →
  JS.nullish (config_of w configInput) = false →
  closed (heap w) → allocated (heap w) (config_of w configInput) →
  let config := config_of w configInput in
  let specific := JS.opt_prop (heap w) (JS.opt_prop (heap w) config "scroll") "scrollbar" in
  let resolved := if JS.truthy specific then specific
                  else JS.opt_prop (heap w) config "scrollbar" in
  ∃ w' b,
    useVList_onMounted user_fn c containerRef instance configInput w = Ok tt w'
    ∧ last (trace w') = Some (Ebuild (next_id w) b)
    ∧ heap w ⊆ heap w'
    ∧ (resolved = VStr "none" → List.filter (of_kind Scrollbar) (b_plugins b) = [])
    ∧ (resolved ≠ VStr "none" → JS.typeof resolved = "object" →
         List.filter (of_kind Scrollbar) (b_plugins b) = [withScrollbar resolved])
    ∧ (resolved ≠ VStr "none" → JS.typeof resolved ≠ "object" →
         ∃ l, List.filter (of_kind Scrollbar) (b_plugins b) = [withScrollbar (VObject l)]
              ∧ heap w !! l = None ∧ heap w' !! l = Some (Obj ∅)).
Proof.
  intros Hc Hn Hcl Ha config specific resolved.
  destruct (useVList_onMounted_mounted user_fn c containerRef instance configInput w
              Hc Hn Hcl Ha)
    as (w' & seed & ps_async & ps_sections & calls & sel & ps_scrollbar & Hrun & Hm).
  destruct (mounted_trace _ _ _ _ _ _ _ _ _ _ _ _ _ Hm) as (middle & Ht & _ & _).
  destruct (plugins_of_kind _ _ _ _ _ _ _ _ _ _ _ _ _ Hm) as (_ & _ & _ & Hsb).
  pose proof (m_scrollbar _ _ _ _ _ _ _ _ _ _ _ _ _ Hm) as Hf.
  unfold scrollbar_fact, scrollbarConfig in Hf. fold config specific resolved in Hf.
  fold config in Hsb.
  exists w', (mkBuilder (VObject seed)
                (plugins_of (heap w) config ps_async ps_sections sel ps_scrollbar)).
  split_and!; [exact Hrun| |apply Hm|..].
  - rewrite Ht, app_comm_cons, app_assoc. apply last_snoc.
  - intros Hnone. cbn [b_plugins]. rewrite Hsb. by rewrite Hnone in Hf.
  - intros Hnone Hobj. cbn [b_plugins]. rewrite Hsb.
    unfold JS.strict_eq in Hf. rewrite bool_decide_eq_false_2 in Hf by done.
    by rewrite Hobj in Hf.
  - intros Hnone Hobj. cbn [b_plugins]. rewrite Hsb.
    unfold JS.strict_eq in Hf. rewrite bool_decide_eq_false_2 in Hf by done.
    apply String.eqb_neq in Hobj. rewrite Hobj in Hf.
    destruct Hf as (l & -> & ? & ?). by exists l.
Qed.

End Options.

(** ** The caller's configuration object *)

Section Frame.

Variable user_fn : nat → list value → value.

(** C10. Build-on-mount leaves every object that existed before it as
    it was, the configuration among them: each of its properties reads
    as before, a missing [container] stays missing.  What [vlist]
    receives is a new object, with the properties of the configuration
    and the container handle as [container]. *)
Theorem config_not_mutated c containerRef instance configInput w :
  JS.truthy (ref_value w containerRef) = true →
  JS.nullish (config_of w configInput) = false →
  closed (heap w) → allocated (heap w) (config_of w configInput) →
  let config := config_of w configInput in
  ∃ w' seed rest,
    useVList_onMounted user_fn c containerRef instance configInput w = Ok tt w'
    ∧ (∀ l o, heap w !! l = Some o → heap w' !! l = Some o)
    ∧ (∀ k, JS.prop (heap w') config k = JS.prop (heap w) config k)
    ∧ JS.own_props (heap w') config = JS.own_props (heap w) config
    ∧ trace w' = trace w ++ Evlist (VObject seed) :: rest
    ∧ heap w !! seed = None
    ∧ config ≠ VObject seed
    ∧ heap w' !! seed
      = Some (Obj (<["container" := ref_value w containerRef]>
                     (JS.own_props (heap w) config))).
Proof.
  intros Hc Hn Hcl Ha config.
  destruct (useVList_onMounted_mounted user_fn c containerRef instance configInput w
              Hc Hn Hcl Ha)
    as (w' & seed & ps_async & ps_sections & calls & sel & ps_scrollbar & Hrun & Hm).
  destruct (mounted_trace _ _ _ _ _ _ _ _ _ _ _ _ _ Hm) as (middle & Ht & _ & _).
  pose proof (m_heap _ _ _ _ _ _ _ _ _ _ _ _ _ Hm) as Hsub.
  pose proof (m_seed_fresh _ _ _ _ _ _ _ _ _ _ _ _ _ Hm) as Hfresh.
  eexists w', seed, _. split_and!; [exact Hrun| | | |exact Ht|exact Hfresh| |apply Hm].
  - intros l o Hl. by eapply lookup_weaken.
  - intros k. by apply prop_weaken.
  - by apply own_props_weaken.
  - intros Heq. fold config in Ha. rewrite Heq in Ha. simpl in Ha.
    rewrite Hfresh in Ha. by destruct Ha.
Qed.

End Frame.

(** ** The grouping configuration *)

Section Groups.

Variable user_fn : nat → list value → value.

(** X11. The copy of the module that resolves the header height: with a
    grouping configuration, the section extension gets a new object with
    [getGroupForIndex] and [headerTemplate] as configured, [sticky] when
    it is not [undefined], and as [headerHeight] the configured value,
    or, when that is a function, the result of calling it with
    [("", 0)]: the one user call the callback makes. *)
Lemma part002_resolves_headerHeight containerRef instance configInput w :
  JS.truthy (ref_value w containerRef) = true →
  JS.nullish (config_of w configInput) = false →
  closed (heap w) → allocated (heap w) (config_of w configInput) →
  let groups := JS.opt_prop (heap w) (config_of w configInput) "groups" in
  let height := JS.opt_prop (heap w) groups "headerHeight" in
  JS.truthy groups = true →
  ∃ w' t b l o,
    useVList_onMounted user_fn Part002 containerRef instance configInput w = Ok tt w'
    ∧ trace w' = trace w ++ t
    ∧ last t = Some (Ebuild (next_id w) b)
    ∧ List.filter (of_kind Sections) (b_plugins b) = [withSections (VObject l)]
    ∧ heap w !! l = None
    ∧ heap w' !! l = Some (Obj o)
    ∧ o !! "getGroupForIndex" = Some (JS.opt_prop (heap w) groups "getGroupForIndex")
    ∧ o !! "headerTemplate" = Some (JS.opt_prop (heap w) groups "headerTemplate")
    ∧ o !! "sticky" = (if bool_decide (JS.opt_prop (heap w) groups "sticky" = VUndefined)
                       then None else Some (JS.opt_prop (heap w) groups "sticky"))
    ∧ o !! "headerHeight" = Some (match height with
                                  | VFunction f => user_fn f [VStr ""; VNum 0]
                                  | v => v
                                  end)
    ∧ user_calls t = match height with
                     | VFunction f => [(f, [VStr ""; VNum 0])]
                     | _ => []
                     end.
Proof.
  intros Hc Hn Hcl Ha groups height Hg.
  destruct (useVList_onMounted_mounted user_fn Part002 containerRef instance configInput w
              Hc Hn Hcl Ha)
    as (w' & seed & ps_async & ps_sections & calls & sel & ps_scrollbar & Hrun & Hm).
  destruct (plugins_of_kind _ _ _ _ _ _ _ _ _ _ _ _ _ Hm) as (_ & Hsec & _ & _).
  pose proof (m_sections _ _ _ _ _ _ _ _ _ _ _ _ _ Hm) as Hf.
  unfold sections_fact, sections_wanted in Hf. fold groups in Hf. rewrite Hg in Hf.
  destruct Hf as (l & -> & Hfresh & Hl & ->).
  eexists w', _, (mkBuilder (VObject seed)
                    (plugins_of (heap w) (config_of w configInput) ps_async
                       [withSections (VObject l)] sel ps_scrollbar)), l, _.
  split_and!; [exact Hrun|apply Hm| |exact Hsec|exact Hfresh|exact Hl|..].
  - rewrite !app_comm_cons, !app_assoc. apply last_snoc.
  - unfold sections_options. fold groups. destruct (negb _); by simplify_map_eq.
  - unfold sections_options. fold groups. destruct (negb _); by simplify_map_eq.
  - unfold sections_options, JS.strict_eq. fold groups.
    destruct (bool_decide _); reflexivity.
  - unfold sections_options, resolved_headerHeight. fold groups height.
    destruct (negb _), height; reflexivity.
  - unfold user_calls, headerHeight_calls. fold groups height.
    change (omap ?f (Evlist ?x :: ?l)) with (omap f l).
    rewrite !omap_app.
    assert (∀ ps, omap (λ e, match e with Ecall f args => Some (f, args) | _ => None end)
                    (map Euse ps) = []) as Hnil
      by (induction ps; [done|by simpl]).
    rewrite !Hnil. simpl. by destruct height.
Qed.

(** X12. [src/index.ts]: with a grouping configuration, the section
    extension gets [config.groups] itself, and no user function is
    called. *)
Lemma index_ts_forwards_groups containerRef instance configInput w :
  JS.truthy (ref_value w containerRef) = true →
  JS.nullish (config_of w configInput) = false →
  closed (heap w) → allocated (heap w) (config_of w configInput) →
  let groups := JS.opt_prop (heap w) (config_of w configInput) "groups" in
  JS.truthy groups = true →
  ∃ w' t b,
    useVList_onMounted user_fn SrcIndex containerRef instance configInput w = Ok tt w'
    ∧ trace w' = trace w ++ t
    ∧ last t = Some (Ebuild (next_id w) b)
    ∧ List.filter (of_kind Sections) (b_plugins b) = [withSections groups]
    ∧ (∀ k, JS.prop (heap w') groups k = JS.prop (heap w) groups k)
    ∧ user_calls t = [].
Proof.
  intros Hc Hn Hcl Ha groups Hg.
  destruct (useVList_onMounted_mounted user_fn SrcIndex containerRef instance configInput w
              Hc Hn Hcl Ha)
    as (w' & seed & ps_async & ps_sections & calls & sel & ps_scrollbar & Hrun & Hm).
  destruct (plugins_of_kind _ _ _ _ _ _ _ _ _ _ _ _ _ Hm) as (_ & Hsec & _ & _).
  pose proof (m_sections _ _ _ _ _ _ _ _ _ _ _ _ _ Hm) as Hf.
  unfold sections_fact, sections_wanted in Hf. fold groups in Hf. rewrite Hg in Hf.
  destruct Hf as [-> ->].
  eexists w', _, (mkBuilder (VObject seed)
                    (plugins_of (heap w) (config_of w configInput) ps_async
                       [withSections groups] sel ps_scrollbar)).
  split_and!; [exact Hrun|apply Hm| |exact Hsec|..].
  - rewrite !app_comm_cons, !app_assoc. apply last_snoc.
  - intros k. apply prop_weaken; [apply Hm|]. by apply closed_opt_prop.
  - unfold user_calls.
    change (omap ?f (Evlist ?x :: ?l)) with (omap f l).
    rewrite !omap_app.
    assert (∀ ps, omap (λ e, match e with Ecall f args => Some (f, args) | _ => None end)
                    (map Euse ps) = []) as Hnil
      by (induction ps; [done|by simpl]).
    by rewrite !Hnil.
Qed.

End Groups.

(** ** Observers: item sync *)

Section Items.

Lemma set_trace_nil w : set_trace (trace w ++ []) w = w.
Proof. rewrite app_nil_r. by destruct w. Qed.

Lemma useVList_onItems_run instance newItems w :
  JS.truthy (ref_value w instance) = false ∨ (∃ i, ref_value w instance = VInstance i) →
  useVList_onItems instance newItems w
  = Ok tt (set_trace (trace w ++ sync_calls w instance newItems) w).
Proof.
  unfold useVList_onItems, sync_calls.
  assert (Vue.read instance w = Ok (ref_value w instance) w) as Hread by done.
  rewrite (bind_Ok _ _ _ _ _ Hread).
  intros [Hf|[i Hi]].
  - rewrite Hf. simpl. destruct (ref_value w instance); try done.
    all: by rewrite set_trace_nil.
  - rewrite Hi. simpl. destruct (JS.truthy newItems).
    + by rewrite (bind_Ok _ _ _ _ _ Hread), Hi.
    + by rewrite set_trace_nil.
Qed.

Lemma poll_items r instance last w :
  let newItems := JS.opt_prop (heap w) (ref_value w r) "items" in
  JS.nullish (ref_value w r) = false →
  JS.truthy (ref_value w instance) = false ∨ (∃ i, ref_value w instance = VInstance i) →
  poll (mkWatcher (ItemsOf r) (SyncItems instance) last) w
  = Ok (mkWatcher (ItemsOf r) (SyncItems instance) newItems)
      (set_trace (trace w ++ if bool_decide (newItems = last) then []
                             else sync_calls w instance newItems) w).
Proof.
  intros newItems Hn Hi. unfold poll. simpl.
  assert (eval_source (ItemsOf r) w = Ok newItems w) as Hsrc.
  { unfold eval_source.
    assert (Vue.read r w = Ok (ref_value w r) w) as Hread by done.
    rewrite (bind_Ok _ _ _ _ _ Hread). unfold get.
    by rewrite (prop_opt_prop _ _ _ Hn). }
  rewrite (bind_Ok _ _ _ _ _ Hsrc).
  destruct (bool_decide (newItems = last)) eqn:Hsame.
  - apply bool_decide_eq_true_1 in Hsame. rewrite set_trace_nil. by rewrite Hsame.
  - unfold mbind, M_bind. by rewrite (useVList_onItems_run _ _ _ Hi).
Qed.

(** C4, as the code has it.  A plain configuration installs no
    observer; a reactive one installs one observer of its [items].
    When the observer sees [items] changed and an instance is published,
    it calls [setItems] with the new value once if that value is truthy
    (any array, the empty one included) and makes no call if it is
    [undefined] or [null]; with no instance published, or with [items]
    unchanged, it makes no call. *)
Theorem items_sync :
  (∀ c configInput w,
     Vue.isRef configInput = false →
     ∃ containerRef instance w',
       useVList c configInput w = Ok (containerRef, instance) w'
       ∧ watchers w' = watchers w)
  ∧ (∀ c r w,
       is_Some (refs w !! r) → JS.nullish (ref_value w r) = false →
       ∃ containerRef instance w',
         useVList c (Reactive r) w = Ok (containerRef, instance) w'
         ∧ watchers w'
           = watchers w ++ [mkWatcher (ItemsOf r) (SyncItems instance)
                              (JS.opt_prop (heap w) (ref_value w r) "items")])
  ∧ (∀ r instance last w,
       let newItems := JS.opt_prop (heap w) (ref_value w r) "items" in
       JS.nullish (ref_value w r) = false →
       JS.truthy (ref_value w instance) = false
       ∨ (∃ i, ref_value w instance = VInstance i) →
       ∃ w',
         poll (mkWatcher (ItemsOf r) (SyncItems instance) last) w
         = Ok (mkWatcher (ItemsOf r) (SyncItems instance) newItems) w'
         ∧ heap w' = heap w ∧ refs w' = refs w
         ∧ (newItems = last → trace w' = trace w)
         ∧ (JS.truthy (ref_value w instance) = false → trace w' = trace w)
         ∧ (JS.nullish newItems = true → trace w' = trace w)
         ∧ (∀ i, ref_value w instance = VInstance i → newItems ≠ last →
              (JS.truthy newItems = true →
                 trace w' = trace w ++ [EsetItems i newItems])
              ∧ (∀ l, newItems = VObject l →
                   trace w' = trace w ++ [EsetItems i (VObject l)]))).
Proof.
  split_and!.
  - intros c [config|r] w Href; [|done].
    destruct w as [? ? ? ? ? ? ? []]; by eexists _, _, _.
  - intros c r w [v Hv] Hn.
    set (containerRef := fresh (dom (refs w))).
    set (instance := fresh (dom (<[containerRef := VNull]> (refs w)))).
    assert (r ≠ containerRef) as Hr1.
    { intros ->. pose proof (is_fresh (dom (refs w))) as Hf.
      apply not_elem_of_dom in Hf. fold containerRef in Hf. congruence. }
    assert (r ≠ instance) as Hr2.
    { intros ->. pose proof (is_fresh (dom (<[containerRef := VNull]> (refs w)))) as Hf.
      apply not_elem_of_dom in Hf. fold instance in Hf.
      rewrite lookup_insert_ne in Hf by done. congruence. }
    exists containerRef, instance.
    unfold useVList, Vue.shallowRef, Vue.ref, Vue.onMounted, Vue.onBeforeUnmount,
      watch, eval_source, Vue.read, get, gets, modify, mbind, M_bind, mret, M_ret.
    simpl. fold containerRef. fold instance.
    destruct (in_setup w) eqn:Hs; simpl; rewrite ?Hs; simpl;
      unfold ref_value at 1; simpl;
      rewrite !lookup_insert_ne by done; fold (ref_value w r);
      rewrite (prop_opt_prop _ _ _ Hn); eexists; split; reflexivity.
  - intros r instance last w newItems Hn Hi.
    eexists. split; [by apply poll_items|]. subst newItems. simpl.
    set (newItems := JS.opt_prop (heap w) (ref_value w r) "items").
    split_and!; try done.
    + intros Heq. rewrite (bool_decide_eq_true_2 _ Heq). by rewrite app_nil_r.
    + intros Hf. unfold sync_calls.
      destruct (bool_decide _); [by rewrite app_nil_r|].
      destruct (ref_value w instance); try done; by rewrite app_nil_r.
    + intros Hnull. unfold sync_calls.
      destruct (bool_decide _); [by rewrite app_nil_r|].
      assert (JS.truthy newItems = false) as -> by (by destruct newItems).
      destruct (ref_value w instance); by rewrite app_nil_r.
    + intros i Hinst Hne. rewrite bool_decide_eq_false_2 by done.
      unfold sync_calls. rewrite Hinst. split.
      * by intros ->.
      * intros l Hl. by rewrite Hl.
Qed.

End Items.

(** C4 as it is worded fails: replacing [items] by an empty array
    while an instance is published makes the observer call [setItems]
    with that empty array. *)
Lemma empty_items_are_forwarded :
  ¬ (∀ r instance last w x' w',
       let newItems := JS.opt_prop (heap w) (ref_value w r) "items" in
       newItems = VUndefined ∨ empty_collection (heap w) newItems →
       poll (mkWatcher (ItemsOf r) (SyncItems instance) last) w = Ok x' w' →
       trace w' = trace w).
Proof.
  intros H.
  set (w := mkWorld {[ 1%positive := Obj {[ "items" := VObject 2%positive ]};
                       2%positive := Arr [];
                       3%positive := Arr [VNum 7] ]}
              {[ 0 := VObject 1%positive; 1 := VElement 0; 2 := VInstance 0 ]}
              [] [] [] [] 1 false).
  specialize (H 0 2 (VObject 3%positive) w).
  specialize (H (mkWatcher (ItemsOf 0) (SyncItems 2) (VObject 2%positive))
                (set_trace [EsetItems 0 (VObject 2%positive)] w)).
  simpl in H. discriminate H.
  - right. exists 2%positive. by vm_compute.
  - by vm_compute.
Qed.

(** ** Observers: event subscription *)

Section Events.

Variable user_fn : nat → list value → value.

(** The observer callback on a published instance: one [on]; its
    release is scheduled for unmount only if the callback runs during
    [setup]. *)
Lemma useVListEvent_onInstance_run name handlerRef i w :
  useVListEvent_onInstance name handlerRef (VInstance i) w
  = Ok tt (set_beforeUnmountHooks
             (beforeUnmountHooks w
              ++ if in_setup w then [Release (next_id w)] else [])
             (set_trace (trace w ++ [Eon i name (Wrapped handlerRef) (next_id w)])
                (set_next_id (S (next_id w)) w))).
Proof.
  unfold useVListEvent_onInstance, Engine.on, fresh_id, emit, Vue.onBeforeUnmount,
    modify, mbind, M_bind, mret, M_ret. simpl.
  destruct (in_setup w); [done|]. by rewrite app_nil_r.
Qed.

Lemma fresh_ref_ne (m : gmap nat value) r : is_Some (m !! r) → r ≠ fresh (dom m).
Proof.
  intros [v Hv] ->. pose proof (is_fresh (dom m)) as Hf.
  apply not_elem_of_dom in Hf. congruence.
Qed.

(** C7. [useVListEvent] keeps the handler in a cell of its own and
    observes the instance reference, reacting at once.  If the reference
    already holds an instance, the wrapped handler is registered on it
    during the call; if it is empty, nothing is registered during the
    call, and the observer that was installed registers the wrapped
    handler when it next reacts to a reference that holds an instance,
    which it does when the host lets its observers react.
    The wrapped handler, when the engine calls it, calls whatever
    function the handler cell holds at that moment. *)
Theorem event_subscription :
  (∀ instanceRef name handler w i,
     ref_value w instanceRef = VInstance i →
     ∃ handlerRef w',
       useVListEvent instanceRef name handler w = Ok tt w'
       ∧ refs w !! handlerRef = None
       ∧ ref_value w' handlerRef = handler
       ∧ trace w' = trace w ++ [Eon i name (Wrapped handlerRef) (next_id w)])
  ∧ (∀ instanceRef name handler w,
       is_Some (refs w !! instanceRef) →
       JS.truthy (ref_value w instanceRef) = false →
       ∃ handlerRef w',
         useVListEvent instanceRef name handler w = Ok tt w'
         ∧ refs w !! handlerRef = None
         ∧ ref_value w' handlerRef = handler
         ∧ trace w' = trace w
         ∧ watchers w'
           = watchers w ++ [mkWatcher (ValueOf instanceRef) (Subscribe name handlerRef)
                              (ref_value w instanceRef)])
  ∧ (∀ instanceRef name handlerRef last w i,
       ref_value w instanceRef = VInstance i → last ≠ VInstance i →
       ∃ w',
         poll (mkWatcher (ValueOf instanceRef) (Subscribe name handlerRef) last) w
         = Ok (mkWatcher (ValueOf instanceRef) (Subscribe name handlerRef) (VInstance i)) w'
         ∧ trace w' = trace w ++ [Eon i name (Wrapped handlerRef) (next_id w)]
         ∧ beforeUnmountHooks w'
           = beforeUnmountHooks w ++ if in_setup w then [Release (next_id w)] else [])
  ∧ (∀ instanceRef name handlerRef last w i,
       watchers w = [mkWatcher (ValueOf instanceRef) (Subscribe name handlerRef) last] →
       ref_value w instanceRef = VInstance i → last ≠ VInstance i →
       ∃ w',
         flush w = Ok tt w'
         ∧ trace w' = trace w ++ [Eon i name (Wrapped handlerRef) (next_id w)]
         ∧ watchers w'
           = [mkWatcher (ValueOf instanceRef) (Subscribe name handlerRef) (VInstance i)])
  ∧ (∀ handlerRef payload w f,
       ref_value w handlerRef = VFunction f →
       invoke user_fn (Wrapped handlerRef) payload w
       = Ok tt (set_trace (trace w ++ [Ecall f [payload]]) w)).
Proof.
  split_and!.
  - intros instanceRef name handler w i Hi.
    assert (instanceRef ≠ fresh (dom (refs w))) as Hne.
    { apply fresh_ref_ne. unfold ref_value in Hi.
      destruct (refs w !! instanceRef); [by eexists|done]. }
    exists (fresh (dom (refs w))).
    unfold useVListEvent, Vue.ref, watch, eval_source, Vue.read, gets, modify,
      mbind, M_bind, mret, M_ret.
    simpl. unfold ref_value at 1. simpl.
    rewrite lookup_insert_ne by done. fold (ref_value w instanceRef). rewrite Hi.
    simpl. rewrite useVListEvent_onInstance_run.
    eexists. split; [reflexivity|]. simpl. split_and!; [|..|done].
    + apply not_elem_of_dom, is_fresh.
    + unfold ref_value. simpl. by rewrite lookup_insert_eq.
  - intros instanceRef name handler w Hsome Hf.
    assert (instanceRef ≠ fresh (dom (refs w))) as Hne by by apply fresh_ref_ne.
    exists (fresh (dom (refs w))).
    unfold useVListEvent, Vue.ref, watch, eval_source, Vue.read, gets, modify,
      mbind, M_bind, mret, M_ret.
    simpl. unfold ref_value at 1 2. simpl.
    rewrite lookup_insert_ne by done. fold (ref_value w instanceRef).
    unfold useVListEvent_onInstance. rewrite Hf. simpl.
    eexists. split; [reflexivity|]. simpl. split_and!; [|..|done|done].
    + apply not_elem_of_dom, is_fresh.
    + unfold ref_value. simpl. by rewrite lookup_insert_eq.
  - intros instanceRef name handlerRef last w i Hi Hne.
    unfold poll, eval_source, Vue.read, gets, mbind, M_bind. simpl.
    rewrite Hi. rewrite bool_decide_eq_false_2 by done.
    rewrite useVListEvent_onInstance_run.
    eexists. split; [reflexivity|]. by simpl.
  - intros instanceRef name handlerRef last w i Hw Hi Hne.
    unfold flush, gets, mbind, M_bind. rewrite Hw. simpl.
    unfold poll, eval_source, Vue.read, gets, mbind, M_bind. simpl.
    rewrite Hi. rewrite bool_decide_eq_false_2 by done.
    rewrite useVListEvent_onInstance_run.
    eexists. split; [reflexivity|]. by simpl.
  - intros handlerRef payload w f Hf.
    unfold invoke, wrappedHandler, Vue.read, gets, mbind, M_bind. by rewrite Hf.
Qed.

End Events.

(** ** Concrete runs *)

Import Examples.

Lemma plain_heap_closed : closed plain_heap.
Proof. apply (bool_decide_unpack _). vm_compute. exact I. Defined.

Lemma grouped_heap_closed : closed grouped_heap.
Proof. apply (bool_decide_unpack _). vm_compute. exact I. Defined.

(** The scenario of the specification: only selection in mode none,
    scale, a default scrollbar and snapshots are attached. *)
Example plain_config_extensions :
  trace_of (useVList_onMounted fns SrcIndex 0 1 (Plain (VObject 1%positive)) plain_world)
  = Some [Evlist (VObject 4%positive);
          Euse (withSelection (VObject 5%positive));
          Euse withScale;
          Euse (withScrollbar (VObject 6%positive));
          Euse withSnapshots;
          Ebuild 0 (mkBuilder (VObject 4%positive)
                      [withSelection (VObject 5%positive); withScale;
                       withScrollbar (VObject 6%positive); withSnapshots])].
Proof. vm_compute. reflexivity. Qed.

(** A configuration that is [null]: [vlist] is called on [{ container }],
    then reading [config.scroll] throws, and no instance is published. *)
Example null_config_throws :
  match useVList_onMounted fns SrcIndex 0 1 (Plain VNull) plain_world with
  | Throw TypeError w' =>
      trace w' = [Evlist (VObject 4%positive)] ∧ ref_value w' 1 = VNull
  | _ => False
  end.
Proof. vm_compute. by split. Qed.

(** C3. [src/index.ts] on a grouping configuration whose
    [headerHeight] is a function: [withSections] receives [config.groups]
    itself (object 4), whose [headerHeight] is still that function
    (function 7), and the function is never called. *)
Theorem index_ts_forwards_headerHeight_function :
  trace_of (useVList_onMounted fns SrcIndex 0 1 (Plain (VObject 1%positive)) grouped_world)
  = Some [Evlist (VObject 7%positive);
          Euse (withSections (VObject 4%positive));
          Euse (withSelection (VObject 5%positive));
          Euse withScale;
          Euse withSnapshots;
          Ebuild 0 (mkBuilder (VObject 7%positive)
                      [withSections (VObject 4%positive);
                       withSelection (VObject 5%positive); withScale; withSnapshots])]
  ∧ JS.prop grouped_heap (VObject 4%positive) "headerHeight" = Some (VFunction 7).
Proof. split; vm_compute; reflexivity. Qed.

(** The other copy on the same input: function 7 is called once with
    [("", 0)], and [withSections] receives a new object (object 8) whose
    [headerHeight] is the number the call returned. *)
Example part002_resolves_headerHeight_function :
  match useVList_onMounted fns Part002 0 1 (Plain (VObject 1%positive)) grouped_world with
  | Ok _ w' =>
      trace w'
      = [Evlist (VObject 7%positive);
         Ecall 7 [VStr ""; VNum 0];
         Euse (withSections (VObject 8%positive));
         Euse (withSelection (VObject 5%positive));
         Euse withScale;
         Euse withSnapshots;
         Ebuild 0 (mkBuilder (VObject 7%positive)
                     [withSections (VObject 8%positive);
                      withSelection (VObject 5%positive); withScale; withSnapshots])]
      ∧ JS.prop (heap w') (VObject 8%positive) "headerHeight" = Some (VNum 32)
      ∧ JS.prop (heap w') (VObject 8%positive) "getGroupForIndex" = Some (VFunction 5)
      ∧ JS.prop (heap w') (VObject 8%positive) "headerTemplate" = Some (VFunction 6)
  | Throw _ _ => False
  end.
Proof. vm_compute. by split_and!. Qed.

(** The whole life of [component]: the build on mount, the subscription
    made once the instance exists, the empty array forwarded to
    [setItems], and on unmount [destroy].  The subscription was made
    after [setup], so no release was registered for it and none
    happens. *)
Example component_trace :
  trace_of (component setup_world)
  = Some [Evlist (VObject 11%positive);
          Euse (withSelection (VObject 12%positive));
          Euse withScale;
          Euse (withScrollbar (VObject 13%positive));
          Euse withSnapshots;
          Ebuild 0 (mkBuilder (VObject 11%positive)
                      [withSelection (VObject 12%positive); withScale;
                       withScrollbar (VObject 13%positive); withSnapshots]);
          Eon 0 "scroll" (Wrapped 3) 1;
          EsetItems 0 (VObject 10%positive);
          Edestroy 0].
Proof. vm_compute. reflexivity. Qed.

(** ** The theorems at concrete inputs *)

Lemma plain_config_allocated :
  allocated Examples.plain_heap (VObject 1%positive).
Proof. apply (bool_decide_unpack _). vm_compute. exact I. Defined.

Lemma grouped_config_allocated :
  allocated Examples.grouped_heap (VObject 1%positive).
Proof. apply (bool_decide_unpack _). vm_compute. exact I. Defined.

Lemma mount_without_container_witness :
  useVList_onMounted Examples.fns SrcIndex 0 1 (Plain (VObject 1%positive))
    Examples.unmounted_world
  = Ok tt Examples.unmounted_world.
Proof. apply mount_without_container. reflexivity. Defined.

Lemma destroy_idempotent_witness :
  ∃ w' w'',
    useVList_onBeforeUnmount 1 Examples.live_world = Ok tt w'
    ∧ trace w' = [Edestroy 0]
    ∧ ref_value w' 1 = VNull
    ∧ useVList_onBeforeUnmount 1 w' = Ok tt w''
    ∧ trace w'' = trace w'
    ∧ ref_value w'' 1 = VNull.
Proof.
  destruct (destroy_idempotent 1 Examples.live_world) as (_ & Hlive & Hagain).
  destruct (Hlive 0) as (w' & Hrun & Ht & Hn); [reflexivity|].
  destruct (Hagain w' Hrun) as (w'' & Hrun' & Ht' & Hn').
  by exists w', w''.
Defined.

Lemma extensions_in_fixed_order_witness :
  ∃ w' seed middle ps,
    useVList_onMounted Examples.fns Part002 0 1 (Plain (VObject 1%positive))
      Examples.grouped_world = Ok tt w'
    ∧ trace w' = Evlist (VObject seed) :: middle
                   ++ [Ebuild 0 (mkBuilder (VObject seed) ps)]
    ∧ uses middle = ps
    ∧ map kind_of ps = [Sections; Selection; Scale; Snapshots]
    ∧ ref_value w' 1 = VInstance 0.
Proof.
  destruct (extensions_in_fixed_order Examples.fns Part002 0 1 (Plain (VObject 1%positive))
              Examples.grouped_world)
    as (w' & seed & middle & ps & Hrun & Ht & _ & Hu & Hk & Hi);
    [reflexivity|reflexivity|exact grouped_heap_closed
    |exact grouped_config_allocated|].
  by exists w', seed, middle, ps.
Defined.

Lemma selection_attached_once_witness :
  ∃ w' b,
    useVList_onMounted Examples.fns SrcIndex 0 1 (Plain (VObject 1%positive))
      Examples.grouped_world = Ok tt w'
    ∧ last (trace w') = Some (Ebuild 0 b)
    ∧ List.filter (of_kind Selection) (b_plugins b) = [withSelection (VObject 5%positive)].
Proof.
  destruct (selection_attached_once Examples.fns SrcIndex 0 1 (Plain (VObject 1%positive))
              Examples.grouped_world)
    as (w' & b & options & Hrun & Hlast & Hsel & _ & Hfull & _);
    [reflexivity|reflexivity|exact grouped_heap_closed
    |exact grouped_config_allocated|].
  exists w', b. split_and!; [done..|].
  rewrite Hsel, Hfull; [reflexivity|reflexivity|by vm_compute].
Defined.

Lemma scrollbar_resolution_witness :
  ∃ w' b,
    useVList_onMounted Examples.fns SrcIndex 0 1 (Plain (VObject 1%positive))
      Examples.grouped_world = Ok tt w'
    ∧ last (trace w') = Some (Ebuild 0 b)
    ∧ List.filter (of_kind Scrollbar) (b_plugins b) = [].
Proof.
  destruct (scrollbar_resolution Examples.fns SrcIndex 0 1 (Plain (VObject 1%positive))
              Examples.grouped_world)
    as (w' & b & Hrun & Hlast & _ & Hnone & _);
    [reflexivity|reflexivity|exact grouped_heap_closed
    |exact grouped_config_allocated|].
  exists w', b. split_and!; [done..|]. apply Hnone. reflexivity.
Defined.

Lemma config_not_mutated_witness :
  ∃ w' seed,
    useVList_onMounted Examples.fns SrcIndex 0 1 (Plain (VObject 1%positive))
      Examples.plain_world = Ok tt w'
    ∧ JS.prop (heap w') (VObject 1%positive) "container" = Some VUndefined
    ∧ JS.prop (heap w') (VObject 1%positive) "items" = Some (VObject 3%positive)
    ∧ VObject 1%positive ≠ VObject seed
    ∧ JS.prop (heap w') (VObject seed) "container" = Some (VElement 0)
    ∧ JS.prop (heap w') (VObject seed) "items" = Some (VObject 3%positive).
Proof.
  destruct (config_not_mutated Examples.fns SrcIndex 0 1 (Plain (VObject 1%positive))
              Examples.plain_world)
    as (w' & seed & rest & Hrun & _ & Hprops & _ & _ & _ & Hne & Hseed);
    [reflexivity|reflexivity|exact plain_heap_closed
    |exact plain_config_allocated|].
  exists w', seed. split_and!; [done|by rewrite Hprops..|done| |].
  - simpl. by rewrite Hseed.
  - simpl. by rewrite Hseed.
Defined.

Lemma items_sync_witness :
  ∃ w',
    poll (mkWatcher (ItemsOf 2) (SyncItems 1) VUndefined)
      (set_refs (<[2 := VObject 1%positive]> (refs Examples.live_world)) Examples.live_world)
    = Ok (mkWatcher (ItemsOf 2) (SyncItems 1) (VObject 3%positive)) w'
    ∧ trace w' = [EsetItems 0 (VObject 3%positive)].
Proof.
  destruct items_sync as (_ & _ & Hreact).
  destruct (Hreact 2 1 VUndefined
              (set_refs (<[2 := VObject 1%positive]> (refs Examples.live_world))
                 Examples.live_world))
    as (w' & Hpoll & _ & _ & _ & _ & _ & Hcall);
    [reflexivity|right; by exists 0|].
  exists w'. split; [exact Hpoll|].
  destruct (Hcall 0) as [_ Harr]; [reflexivity|done|].
  apply (Harr 3%positive). reflexivity.
Defined.

Lemma event_subscription_witness :
  (∃ handlerRef w',
     useVListEvent 1 "scroll" (VFunction 9) Examples.live_world = Ok tt w'
     ∧ trace w' = [Eon 0 "scroll" (Wrapped handlerRef) 1])
  ∧ (∃ w',
       poll (mkWatcher (ValueOf 1) (Subscribe "scroll" 5) VNull) Examples.live_world
       = Ok (mkWatcher (ValueOf 1) (Subscribe "scroll" 5) (VInstance 0)) w'
       ∧ trace w' = [Eon 0 "scroll" (Wrapped 5) 1]).
Proof.
  destruct (event_subscription Examples.fns) as (Hnow & _ & Hlater & _ & _). split.
  - destruct (Hnow 1 "scroll" (VFunction 9) Examples.live_world 0)
      as (handlerRef & w' & Hrun & _ & _ & Ht); [reflexivity|].
    by exists handlerRef, w'.
  - destruct (Hlater 1 "scroll" 5 VNull Examples.live_world 0)
      as (w' & Hpoll & Ht & _); [reflexivity|done|].
    by exists w'.
Defined.

(** * Further properties of the adapter *)

(** ** The optional extensions *)

(** The page, grid, scale and snapshot extensions of a finished
    builder. *)
Lemma plugins_of_kind_more user_fn c container config instance w w'
    seed ps_async ps_sections calls selection ps_scrollbar :
  mounted user_fn c container config instance w w'
    seed ps_async ps_sections calls selection ps_scrollbar →
  let ps := plugins_of (heap w) config ps_async ps_sections selection ps_scrollbar in
  List.filter (of_kind Page) ps = page_plugins (heap w) config
  ∧ List.filter (of_kind Grid) ps = grid_plugins (heap w) config
  ∧ List.filter (of_kind Scale) ps = [withScale]
  ∧ List.filter (of_kind Snapshots) ps = [withSnapshots].
Proof.
  intros Hm ps. subst ps. unfold plugins_of.
  pose proof (async_kinds _ _ _ _ (m_async _ _ _ _ _ _ _ _ _ _ _ _ _ Hm)) as Ka.
  pose proof (sections_kinds _ _ _ _ _ _ _ (m_sections _ _ _ _ _ _ _ _ _ _ _ _ _ Hm)) as Ks.
  pose proof (scrollbar_kinds _ _ _ _ (m_scrollbar _ _ _ _ _ _ _ _ _ _ _ _ _ Hm)) as Kb.
  assert (map kind_of (page_plugins (heap w) config)
          = if page_wanted (heap w) config then [Page] else []) as Kp
    by (unfold page_plugins; by destruct (page_wanted _ _)).
  assert (map kind_of (grid_plugins (heap w) config)
          = if grid_wanted (heap w) config then [Grid] else []) as Kg
    by (unfold grid_plugins; by destruct (grid_wanted _ _)).
  assert (map kind_of ps_scrollbar
          = if negb (JS.strict_eq (scrollbarConfig (heap w) config) (VStr "none"))
            then [Scrollbar] else []) as Kb'
    by (rewrite Kb; by destruct (JS.strict_eq _ _)).
  split_and!; rewrite !List.filter_app;
    rewrite (filter_of_kind_single _ _ _ _ Kp), (filter_of_kind_single _ _ _ _ Ka),
      (filter_of_kind_single _ _ _ _ Kg), (filter_of_kind_single _ _ _ _ Ks),
      (filter_of_kind_single _ _ _ _ Kb');
    simpl; by rewrite ?app_nil_r.
Qed.

(** The kinds of the extensions of a finished builder: the fixed order,
    without what the configuration does not ask for. *)
Lemma plugins_of_kinds user_fn c container config instance w w'
    seed ps_async ps_sections calls selection ps_scrollbar :
  mounted user_fn c container config instance w w'
    seed ps_async ps_sections calls selection ps_scrollbar →
  map kind_of (plugins_of (heap w) config ps_async ps_sections selection ps_scrollbar)
  = List.filter (wanted (heap w) config) fixed_order.
Proof.
  intros Hm. unfold plugins_of. rewrite !map_app.
  rewrite (async_kinds _ _ _ _ (m_async _ _ _ _ _ _ _ _ _ _ _ _ _ Hm)).
  rewrite (sections_kinds _ _ _ _ _ _ _ (m_sections _ _ _ _ _ _ _ _ _ _ _ _ _ Hm)).
  rewrite (scrollbar_kinds _ _ _ _ (m_scrollbar _ _ _ _ _ _ _ _ _ _ _ _ _ Hm)).
  unfold page_plugins, grid_plugins, fixed_order, wanted. simpl.
  by destruct (page_wanted _ _), (async_wanted _ _), (grid_wanted _ _),
    (sections_wanted _ _), (JS.strict_eq _ _).
Qed.

Section Optional.

Variable user_fn : nat → list value → value.

(** X1. The page-scroll extension is on the finished builder exactly when
    [config.scroll?.element] is [window], and then once, ahead of every
    other extension; for any other scroll target, or none, it is
    absent. *)
Theorem page_iff_window c containerRef instance configInput w :
  JS.truthy (ref_value w containerRef) = true →
  JS.nullish (config_of w configInput) = false →
  closed (heap w) → allocated (heap w) (config_of w configInput) →
  let config := config_of w configInput in
  let element := JS.opt_prop (heap w) (JS.opt_prop (heap w) config "scroll") "element" in
  ∃ w' b,
    useVList_onMounted user_fn c containerRef instance configInput w = Ok tt w'
    ∧ last (trace w') = Some (Ebuild (next_id w) b)
    ∧ (element = VWindow →
         head (b_plugins b) = Some withPage
         ∧ List.filter (of_kind Page) (b_plugins b) = [withPage])
    ∧ (element ≠ VWindow → List.filter (of_kind Page) (b_plugins b) = []).
Proof.
  intros Hc Hn Hcl Ha config element.
  destruct (useVList_onMounted_mounted user_fn c containerRef instance configInput w
              Hc Hn Hcl Ha)
    as (w' & seed & ps_async & ps_sections & calls & sel & ps_scrollbar & Hrun & Hm).
  destruct (mounted_trace _ _ _ _ _ _ _ _ _ _ _ _ _ Hm) as (middle & Ht & _ & _).
  destruct (plugins_of_kind_more _ _ _ _ _ _ _ _ _ _ _ _ _ Hm) as (Hpage & _).
  fold config in Hpage.
  exists w', (mkBuilder (VObject seed)
                (plugins_of (heap w) config ps_async ps_sections sel ps_scrollbar)).
  split_and!; [exact Hrun| |..].
  - rewrite Ht, app_comm_cons, app_assoc. apply last_snoc.
  - intros Hw. cbn [b_plugins]. rewrite Hpage.
    unfold plugins_of, page_plugins, page_wanted, JS.strict_eq.
    fold element. by rewrite bool_decide_eq_true_2.
  - intros Hw. cbn [b_plugins]. rewrite Hpage.
    unfold page_plugins, page_wanted, JS.strict_eq.
    fold element. by rewrite bool_decide_eq_false_2.
Qed.

(** X2. The async-loading extension is on the finished builder exactly
    when [config.adapter] is truthy, and then once.  Its options are a
    new object that holds the adapter, and the loading configuration when
    that is truthy; without a loading configuration the object has no
    [loading] property at all. *)
Theorem async_iff_adapter c containerRef instance configInput w :
  JS.truthy (ref_value w containerRef) = true →
  JS.nullish (config_of w configInput) = false →
  closed (heap w) → allocated (heap w) (config_of w configInput) →
  let config := config_of w configInput in
  let adapter := JS.opt_prop (heap w) config "adapter" in
  let loading := JS.opt_prop (heap w) config "loading" in
  ∃ w' b,
    useVList_onMounted user_fn c containerRef instance configInput w = Ok tt w'
    ∧ last (trace w') = Some (Ebuild (next_id w) b)
    ∧ (JS.truthy adapter = false → List.filter (of_kind Async) (b_plugins b) = [])
    ∧ (JS.truthy adapter = true →
         ∃ l o,
           List.filter (of_kind Async) (b_plugins b) = [withAsync (VObject l)]
           ∧ heap w !! l = None
           ∧ heap w' !! l = Some (Obj o)
           ∧ o !! "adapter" = Some adapter
           ∧ o !! "loading" = (if JS.truthy loading then Some loading else None)
           ∧ ∀ k, k ≠ "adapter" → k ≠ "loading" → o !! k = None).
Proof.
  intros Hc Hn Hcl Ha config adapter loading.
  destruct (useVList_onMounted_mounted user_fn c containerRef instance configInput w
              Hc Hn Hcl Ha)
    as (w' & seed & ps_async & ps_sections & calls & sel & ps_scrollbar & Hrun & Hm).
  destruct (mounted_trace _ _ _ _ _ _ _ _ _ _ _ _ _ Hm) as (middle & Ht & _ & _).
  destruct (plugins_of_kind _ _ _ _ _ _ _ _ _ _ _ _ _ Hm) as (Hasync & _).
  pose proof (m_async _ _ _ _ _ _ _ _ _ _ _ _ _ Hm) as Hf.
  unfold async_fact, async_wanted in Hf. fold config adapter in Hf.
  fold config in Hasync.
  exists w', (mkBuilder (VObject seed)
                (plugins_of (heap w) config ps_async ps_sections sel ps_scrollbar)).
  split_and!; [exact Hrun| |..].
  - rewrite Ht, app_comm_cons, app_assoc. apply last_snoc.
  - intros Hw. cbn [b_plugins]. rewrite Hasync. by rewrite Hw in Hf.
  - intros Hw. cbn [b_plugins]. rewrite Hasync. rewrite Hw in Hf.
    destruct Hf as (l & -> & Hfresh & Hl).
    exists l, (async_options (heap w) config). split_and!; [done..| | |].
    + unfold async_options. fold loading adapter.
      destruct (JS.truthy loading); by simplify_map_eq.
    + unfold async_options. fold loading adapter.
      destruct (JS.truthy loading); by simplify_map_eq.
    + intros k Hk1 Hk2. unfold async_options.
      destruct (JS.truthy (JS.opt_prop (heap w) config "loading")).
      * rewrite lookup_insert_ne by done. by rewrite lookup_singleton_ne.
      * by rewrite lookup_singleton_ne.
Qed.

(** X3. The grid-layout extension is on the finished builder exactly when
    [config.layout] is ["grid"] and [config.grid] is truthy, and then
    once, with [config.grid] itself as its options.  Grid parameters
    under another layout, or the grid layout without parameters, attach
    nothing. *)
Theorem grid_iff_layout_and_params c containerRef instance configInput w :
  JS.truthy (ref_value w containerRef) = true →
  JS.nullish (config_of w configInput) = false →
  closed (heap w) → allocated (heap w) (config_of w configInput) →
  let config := config_of w configInput in
  let layout := JS.opt_prop (heap w) config "layout" in
  let grid := JS.opt_prop (heap w) config "grid" in
  ∃ w' b,
    useVList_onMounted user_fn c containerRef instance configInput w = Ok tt w'
    ∧ last (trace w') = Some (Ebuild (next_id w) b)
    ∧ (layout = VStr "grid" → JS.truthy grid = true →
         List.filter (of_kind Grid) (b_plugins b) = [withGrid grid])
    ∧ (layout ≠ VStr "grid" ∨ JS.truthy grid = false →
         List.filter (of_kind Grid) (b_plugins b) = []).
Proof.
  intros Hc Hn Hcl Ha config layout grid.
  destruct (useVList_onMounted_mounted user_fn c containerRef instance configInput w
              Hc Hn Hcl Ha)
    as (w' & seed & ps_async & ps_sections & calls & sel & ps_scrollbar & Hrun & Hm).
  destruct (mounted_trace _ _ _ _ _ _ _ _ _ _ _ _ _ Hm) as (middle & Ht & _ & _).
  destruct (plugins_of_kind_more _ _ _ _ _ _ _ _ _ _ _ _ _ Hm) as (_ & Hgrid & _).
  fold config in Hgrid.
  exists w', (mkBuilder (VObject seed)
                (plugins_of (heap w) config ps_async ps_sections sel ps_scrollbar)).
  split_and!; [exact Hrun| |..].
  - rewrite Ht, app_comm_cons, app_assoc. apply last_snoc.
  - intros Hl Hg. cbn [b_plugins]. rewrite Hgrid.
    unfold grid_plugins, grid_wanted, JS.strict_eq. fold layout grid.
    by rewrite bool_decide_eq_true_2, Hg.
  - intros Hno. cbn [b_plugins]. rewrite Hgrid.
    unfold grid_plugins, grid_wanted, JS.strict_eq. fold layout grid.
    destruct Hno as [Hl|Hg].
    + by rewrite bool_decide_eq_false_2.
    + rewrite Hg. by destruct (bool_decide _).
Qed.

End Optional.

(** ** Failure and misuse *)

Section Misuse.

Variable user_fn : nat → list value → value.

(** X4. With the container bound but a configuration that is [null] or
    [undefined], build-on-mount has already called [vlist] on a new
    object holding only the container when reading [config.scroll]
    raises a [TypeError]: no extension is applied, nothing is built, and
    the instance reference is left as it was. *)
Theorem nullish_config_throws c containerRef instance configInput w :
  JS.truthy (ref_value w containerRef) = true →
  JS.nullish (config_of w configInput) = true →
  ∃ w' seed,
    useVList_onMounted user_fn c containerRef instance configInput w
    = Throw TypeError w'
    ∧ trace w' = trace w ++ [Evlist (VObject seed)]
    ∧ heap w !! seed = None
    ∧ heap w' !! seed = Some (Obj {["container" := ref_value w containerRef]})
    ∧ refs w' = refs w.
Proof.
  intros Hc Hn. unfold useVList_onMounted.
  assert (Vue.read containerRef w = Ok (ref_value w containerRef) w) as Hread by done.
  rewrite (bind_Ok _ _ _ _ _ Hread), Hc. cbn [negb].
  assert (Vue.unref configInput w = Ok (config_of w configInput) w) as Hunref
    by (by destruct configInput).
  rewrite (bind_Ok _ _ _ _ _ Hunref).
  assert (spread (config_of w configInput) w = Ok ∅ w) as Hspread.
  { unfold spread, gets. by destruct (config_of w configInput). }
  rewrite (bind_Ok _ _ _ _ _ Hspread).
  destruct (new_object_grows (<["container" := ref_value w containerRef]> ∅) w)
    as (seed & w0 & Hnew & Hg0 & Hfresh & Hseed).
  rewrite (bind_Ok _ _ _ _ _ Hnew).
  exists (set_trace (trace w0 ++ [Evlist (VObject seed)]) w0), seed.
  destruct Hg0 as [Gh Gr Gm Gu Gw Gt Gn Gs]. rewrite app_nil_r in Gt.
  split_and!; simpl; try done.
  - unfold Engine.vlist, emit, modify, attachPage, get.
    destruct (config_of w configInput); try done;
      repeat (unfold mbind, M_bind, mret, M_ret; simpl); reflexivity.
  - by rewrite Gt.
Qed.

End Misuse.

(** ** Mounting from any world the configuration lives in *)

Lemma quiet_bind {A B} h0 config (m : M A) (f : A → M B) :
  quiet h0 config m → (∀ a, quiet h0 config (f a)) → quiet h0 config (m ≫= f).
Proof.
  intros Hm Hf w Hb.
  destruct (Hm w Hb) as (a & w1 & t1 & Hrun1 & Hg1 & Ht1).
  destruct (Hf a w1 (based_grows _ _ _ _ _ Hb Hg1)) as (b & w2 & t2 & Hrun2 & Hg2 & Ht2).
  exists b, w2, (t1 ++ t2). rewrite (bind_Ok _ _ _ _ _ Hrun1).
  split_and!; [done|by eapply grows_trans|by apply Forall_app].
Qed.

Lemma finishing_bind {A} h0 config instance (m : M A) (f : A → M unit) :
  quiet h0 config m → (∀ a, finishing h0 config instance (f a)) →
  finishing h0 config instance (m ≫= f).
Proof.
  intros Hm Hf w Hb.
  destruct (Hm w Hb) as (a & w1 & t1 & Hrun1 & Hg1 & Ht1).
  destruct (Hf a w1 (based_grows _ _ _ _ _ Hb Hg1))
    as (w2 & t2 & b & Hrun2 & Hh & Hr & Hn & Hm1 & Hm2 & Hm3 & Hs & Ht & Ht2).
  destruct Hg1 as [Gh Gr Gm Gu Gw Gt Gn Gs].
  exists w2, (t1 ++ t2), b. rewrite (bind_Ok _ _ _ _ _ Hrun1).
  split_and!; try congruence.
  - by etrans.
  - rewrite Ht, Gt, Gn. by rewrite <- !app_assoc.
  - by apply Forall_app.
Qed.

Lemma quiet_use h0 config b p : quiet h0 config (Engine.use b p).
Proof.
  intros w Hb. destruct (use_grows b p w) as (w' & Hrun & Hg).
  eexists _, w', _. split_and!; [exact Hrun|exact Hg|]. by repeat constructor.
Qed.

Section Again.

Variable user_fn : nat → list value → value.

Lemma quiet_attachPage h0 config b : quiet h0 config (attachPage config b).
Proof.
  intros w Hb. destruct (attachPage_grows h0 config b w Hb) as (w' & Hrun & Hg).
  eexists _, w', _. split_and!; [exact Hrun|exact Hg|apply Forall_map_Euse].
Qed.

Lemma quiet_attachAsync h0 config b : quiet h0 config (attachAsync config b).
Proof.
  intros w Hb. destruct (attachAsync_grows h0 config b w Hb) as (ps & w' & Hrun & Hg & _).
  eexists _, w', _. split_and!; [exact Hrun|exact Hg|apply Forall_map_Euse].
Qed.

Lemma quiet_attachGrid h0 config b : quiet h0 config (attachGrid config b).
Proof.
  intros w Hb. destruct (attachGrid_grows h0 config b w Hb) as (w' & Hrun & Hg).
  eexists _, w', _. split_and!; [exact Hrun|exact Hg|apply Forall_map_Euse].
Qed.

Lemma quiet_attachSections h0 config c b :
  quiet h0 config (attachSections user_fn c config b).
Proof.
  intros w Hb.
  destruct (attachSections_grows user_fn h0 config c b w Hb)
    as (ps & calls & w' & Hrun & Hg & Hf).
  eexists _, w', _. split_and!; [exact Hrun|exact Hg|].
  apply Forall_app. split; [|apply Forall_map_Euse].
  by destruct (sections_calls _ _ _ _ _ _ _ Hf).
Qed.

Lemma quiet_attachSelection h0 config b : quiet h0 config (attachSelection config b).
Proof.
  intros w Hb.
  destruct (attachSelection_grows h0 config b w Hb) as (o & w' & Hrun & Hg & _).
  eexists _, w', _. split_and!; [exact Hrun|exact Hg|]. by repeat constructor.
Qed.

Lemma quiet_attachScrollbar h0 config b : quiet h0 config (attachScrollbar config b).
Proof.
  intros w Hb.
  destruct (attachScrollbar_grows h0 config b w Hb) as (ps & w' & Hrun & Hg & _).
  eexists _, w', _. split_and!; [exact Hrun|exact Hg|apply Forall_map_Euse].
Qed.

Lemma finishing_build h0 config instance b :
  finishing h0 config instance (built ← Engine.build b; Vue.write instance built).
Proof.
  intros w Hb. eexists _, [], b. split; [reflexivity|]. by simpl.
Qed.

(** The callback from a world that extends a closed heap holding the
    configuration: it returns; it calls [vlist], then only [use] and user
    functions, then [build]; and it publishes the built instance. *)
Lemma useVList_onMounted_based h0 c containerRef instance configInput w :
  JS.truthy (ref_value w containerRef) = true →
  based h0 (config_of w configInput) w →
  ∃ w' seed middle b,
    useVList_onMounted user_fn c containerRef instance configInput w = Ok tt w'
    ∧ heap w ⊆ heap w'
    ∧ refs w' = <[instance := VInstance (next_id w)]> (refs w)
    ∧ next_id w' = S (next_id w)
    ∧ mountedHooks w' = mountedHooks w
    ∧ beforeUnmountHooks w' = beforeUnmountHooks w
    ∧ watchers w' = watchers w
    ∧ in_setup w' = in_setup w
    ∧ trace w' = trace w ++ Evlist (VObject seed) :: middle
                   ++ [Ebuild (next_id w) b]
    ∧ Forall is_use_or_call middle.
Proof.
  intros Hc Hb. set (config := config_of w configInput) in *.
  unfold useVList_onMounted.
  assert (Vue.read containerRef w = Ok (ref_value w containerRef) w) as Hread by done.
  rewrite (bind_Ok _ _ _ _ _ Hread), Hc. cbn [negb].
  assert (Vue.unref configInput w = Ok config w) as Hunref by (by destruct configInput).
  rewrite (bind_Ok _ _ _ _ _ Hunref).
  assert (spread config w = Ok (JS.own_props (heap w) config) w) as Hspread by done.
  rewrite (bind_Ok _ _ _ _ _ Hspread).
  destruct (new_object_grows
              (<["container" := ref_value w containerRef]> (JS.own_props (heap w) config)) w)
    as (seed & w0 & Hnew & Hg0 & _ & _).
  rewrite (bind_Ok _ _ _ _ _ Hnew).
  assert (∃ w1, Engine.vlist (VObject seed) w0 = Ok (mkBuilder (VObject seed) []) w1
                ∧ grows w0 w1 [Evlist (VObject seed)]) as (w1 & Hvlist & Hg1).
  { eexists. split; [reflexivity|]. by split. }
  rewrite (bind_Ok _ _ _ _ _ Hvlist).
  pose proof (grows_trans _ _ _ _ _ Hg0 Hg1) as G1. simpl app in G1.
  pose proof (based_grows _ _ _ _ _ Hb G1) as B1.
  match goal with
  | |- context [?m w1] =>
      assert (finishing h0 config instance m) as Hfin
  end.
  { apply finishing_bind; [apply quiet_attachPage|intros b1].
    apply finishing_bind; [apply quiet_attachAsync|intros b2].
    apply finishing_bind; [apply quiet_attachGrid|intros b3].
    apply finishing_bind; [apply quiet_attachSections|intros b4].
    apply finishing_bind; [apply quiet_attachSelection|intros b5].
    apply finishing_bind; [apply quiet_use|intros b6].
    apply finishing_bind; [apply quiet_attachScrollbar|intros b7].
    apply finishing_bind; [apply quiet_use|intros b8].
    apply finishing_build. }
  destruct (Hfin w1 B1)
    as (w' & t & b & Hrun & Hh & Hr & Hn & Hm1 & Hm2 & Hm3 & Hs & Ht & Hq).
  destruct G1 as [Gh Gr Gm Gu Gw Gt Gn Gs].
  exists w', seed, t, b. split_and!; try congruence.
  - by etrans.
  - rewrite Ht, Gt, Gn. by rewrite <- app_assoc.
Qed.

End Again.

Lemma destroys_use_or_call t : Forall is_use_or_call t → destroys t = [].
Proof.
  induction 1 as [|e t He _ IH]; [done|].
  unfold destroys in *. by destruct e.
Qed.

Lemma builds_mount_trace seed middle i b :
  Forall is_use_or_call middle →
  builds (Evlist (VObject seed) :: middle ++ [Ebuild i b]) = [i]
  ∧ destroys (Evlist (VObject seed) :: middle ++ [Ebuild i b]) = [].
Proof.
  intros Hm. split.
  - change (builds (Evlist (VObject seed) :: ?l)) with (builds l).
    unfold builds. rewrite omap_app.
    pose proof (builds_use_or_call _ Hm) as Hb. unfold builds in Hb. by rewrite Hb.
  - change (destroys (Evlist (VObject seed) :: ?l)) with (destroys l).
    unfold destroys. rewrite omap_app.
    pose proof (destroys_use_or_call _ Hm) as Hd. unfold destroys in Hd. by rewrite Hd.
Qed.

Section Twice.

Variable user_fn : nat → list value → value.

(** X5. Build-on-mount has no guard against a published instance: run a
    second time without an unmount in between, it builds a second
    instance and publishes it over the first, and the first is never
    destroyed. *)
Theorem second_mount_replaces_without_destroy c containerRef instance configInput w :
  JS.truthy (ref_value w containerRef) = true →
  JS.nullish (config_of w configInput) = false →
  closed (heap w) → allocated (heap w) (config_of w configInput) →
  containerRef ≠ instance → configInput ≠ Reactive instance →
  ∃ w1 w2 t,
    useVList_onMounted user_fn c containerRef instance configInput w = Ok tt w1
    ∧ ref_value w1 instance = VInstance (next_id w)
    ∧ useVList_onMounted user_fn c containerRef instance configInput w1 = Ok tt w2
    ∧ ref_value w2 instance = VInstance (S (next_id w))
    ∧ trace w2 = trace w ++ t
    ∧ builds t = [next_id w; S (next_id w)]
    ∧ destroys t = [].
Proof.
  intros Hc Hn Hcl Ha Hne1 Hne2.
  assert (based (heap w) (config_of w configInput) w) as Hb by (by split).
  destruct (useVList_onMounted_based user_fn _ c containerRef instance configInput w Hc Hb)
    as (w1 & seed1 & mid1 & b1 & Hrun1 & Hh1 & Hr1 & Hn1 & _ & _ & _ & _ & Ht1 & Hq1).
  assert (ref_value w1 containerRef = ref_value w containerRef) as Hc1.
  { unfold ref_value. by rewrite Hr1, lookup_insert_ne. }
  assert (config_of w1 configInput = config_of w configInput) as Hcfg.
  { destruct configInput as [config|r]; [done|]. simpl. unfold ref_value.
    rewrite Hr1, lookup_insert_ne; [done|]. congruence. }
  assert (based (heap w) (config_of w1 configInput) w1) as Hb1.
  { rewrite Hcfg. by split. }
  rewrite <- Hc1 in Hc.
  destruct (useVList_onMounted_based user_fn _ c containerRef instance configInput w1 Hc Hb1)
    as (w2 & seed2 & mid2 & b2 & Hrun2 & Hh2 & Hr2 & Hn2 & _ & _ & _ & _ & Ht2 & Hq2).
  destruct (builds_mount_trace seed1 mid1 (next_id w) b1 Hq1) as [Hb1' Hd1'].
  destruct (builds_mount_trace seed2 mid2 (next_id w1) b2 Hq2) as [Hb2' Hd2'].
  exists w1, w2, ((Evlist (VObject seed1) :: mid1 ++ [Ebuild (next_id w) b1])
                  ++ Evlist (VObject seed2) :: mid2 ++ [Ebuild (next_id w1) b2]).
  split_and!; [done|by eapply ref_value_insert|done| |..].
  - rewrite <- Hn1. by eapply ref_value_insert.
  - rewrite Ht2, Ht1. by rewrite <- app_assoc.
  - unfold builds in *. rewrite omap_app, Hb1', Hb2', Hn1. done.
  - unfold destroys in *. by rewrite omap_app, Hd1', Hd2'.
Qed.

End Twice.

(** ** A component's life, through the host's signals *)

(** What the host's [setup] adds to a body that returns. *)
Lemma setup_run {A} (body : M A) w a w0 :
  body (set_in_setup true w) = Ok a w0 →
  Vue.setup body w = Ok a (set_in_setup false w0).
Proof.
  intros H. unfold Vue.setup, modify, mbind, M_bind, mret, M_ret. by rewrite H.
Qed.

(** [useVList] while [setup] runs, completely: two new empty cells, one
    callback for each signal, the item observer for a reactive
    configuration, and nothing else. *)
Lemma useVList_run c configInput w :
  in_setup w = true →
  setup_ok w configInput →
  ∃ containerRef instance w0,
    useVList c configInput w = Ok (containerRef, instance) w0
    ∧ refs w !! containerRef = None
    ∧ refs w !! instance = None
    ∧ containerRef ≠ instance
    ∧ refs w0 = <[instance := VNull]> (<[containerRef := VNull]> (refs w))
    ∧ heap w0 = heap w
    ∧ trace w0 = trace w
    ∧ next_id w0 = next_id w
    ∧ mountedHooks w0
      = mountedHooks w ++ [BuildOnMount c containerRef instance configInput]
    ∧ beforeUnmountHooks w0 = beforeUnmountHooks w ++ [DestroyOnUnmount instance]
    ∧ watchers w0 = watchers w ++ items_watchers w configInput instance
    ∧ in_setup w0 = true.
Proof.
  intros Hs Hok.
  set (r1 := fresh (dom (refs w))).
  set (r2 := fresh (dom (<[r1 := VNull]> (refs w)))).
  assert (refs w !! r1 = None) as Hr1 by apply not_elem_of_dom, is_fresh.
  assert (<[r1 := VNull]> (refs w) !! r2 = None) as Hr2
    by apply not_elem_of_dom, is_fresh.
  assert (r1 ≠ r2) as Hne.
  { intros Heq. rewrite <- Heq in Hr2. by rewrite lookup_insert_eq in Hr2. }
  rewrite lookup_insert_ne in Hr2 by done.
  exists r1, r2.
  unfold useVList, Vue.shallowRef, Vue.ref, Vue.onMounted, Vue.onBeforeUnmount,
    watch, eval_source, Vue.read, get, gets, modify, mbind, M_bind, mret, M_ret.
  simpl. fold r1. fold r2. rewrite Hs. simpl. rewrite ?Hs. simpl.
  destruct configInput as [config|r]; simpl.
  - eexists. split; [reflexivity|]. simpl. split_and!; try done. by rewrite app_nil_r.
  - destruct Hok as [[v Hv] Hn].
    unfold ref_value at 1. simpl.
    rewrite !lookup_insert_ne by congruence. fold (ref_value w r).
    rewrite (prop_opt_prop _ _ _ Hn).
    eexists. split; [reflexivity|]. simpl. by split_and!.
Qed.

(** A [setup] that only calls [useVList]. *)
Lemma useVList_setup c configInput w :
  setup_ok w configInput →
  ∃ containerRef instance w0,
    Vue.setup (useVList c configInput) w = Ok (containerRef, instance) w0
    ∧ refs w !! containerRef = None
    ∧ refs w !! instance = None
    ∧ containerRef ≠ instance
    ∧ refs w0 = <[instance := VNull]> (<[containerRef := VNull]> (refs w))
    ∧ heap w0 = heap w
    ∧ trace w0 = trace w
    ∧ next_id w0 = next_id w
    ∧ mountedHooks w0
      = mountedHooks w ++ [BuildOnMount c containerRef instance configInput]
    ∧ beforeUnmountHooks w0 = beforeUnmountHooks w ++ [DestroyOnUnmount instance]
    ∧ watchers w0 = watchers w ++ items_watchers w configInput instance
    ∧ in_setup w0 = false.
Proof.
  intros Hok.
  destruct (useVList_run c configInput (set_in_setup true w) eq_refl)
    as (cr & i & w0 & Hrun & H1 & H2 & H3 & H4 & H5 & H6 & H7 & H8 & H9 & H10 & _);
    [by destruct configInput|].
  exists cr, i, (set_in_setup false w0).
  split; [by apply setup_run|]. by split_and!.
Qed.

Lemma mount_single user_fn h w :
  mountedHooks w = [h] →
  mount user_fn w = (run_hook user_fn h;; mret tt) w.
Proof. intros H. unfold mount, gets, mbind, M_bind. by rewrite H. Qed.

Lemma unmount_hooks user_fn w :
  unmount user_fn w = run_hooks user_fn (beforeUnmountHooks w) w.
Proof. reflexivity. Qed.

Section Signals.

Variable user_fn : nat → list value → value.

(** The component of [useVList] up to and including the mount signal,
    with the container bound: its callback is the one the signal runs. *)
Lemma mounted_component_run c configInput container w :
  mountedHooks w = [] →
  setup_ok w configInput →
  JS.truthy container = true →
  JS.nullish (config_of w configInput) = false →
  closed (heap w) → allocated (heap w) (config_of w configInput) →
  ∃ containerRef instance w' seed middle b,
    mounted_component user_fn c configInput container w
    = Ok (containerRef, instance) w'
    ∧ refs w !! instance = None
    ∧ trace w' = trace w ++ Evlist (VObject seed) :: middle
                   ++ [Ebuild (next_id w) b]
    ∧ Forall is_use_or_call middle
    ∧ ref_value w' instance = VInstance (next_id w)
    ∧ beforeUnmountHooks w' = beforeUnmountHooks w ++ [DestroyOnUnmount instance].
Proof.
  intros Hm0 Hok Hc Hn Hcl Ha.
  destruct (useVList_setup c configInput w Hok)
    as (cr & i & w0 & Hsetup & Hcr & Hi & Hne & Hrefs & Hheap & Htr & Hid & Hmh & Huh & _).
  unfold mounted_component. rewrite (bind_Ok _ _ _ _ _ Hsetup). cbv beta iota.
  set (w1 := set_refs (<[cr := container]> (refs w0)) w0).
  assert (Vue.write cr container w0 = Ok tt w1) as Hwrite by done.
  rewrite (bind_Ok _ _ _ _ _ Hwrite).
  assert (ref_value w1 cr = container) as Hcont.
  { unfold ref_value. simpl. by rewrite lookup_insert_eq. }
  assert (config_of w1 configInput = config_of w configInput) as Hcfg.
  { destruct configInput as [config|r]; [done|]. destruct Hok as [[v Hv] _].
    simpl. unfold ref_value. simpl.
    rewrite Hrefs, !lookup_insert_ne by congruence. done. }
  assert (based (heap w) (config_of w1 configInput) w1) as Hb.
  { rewrite Hcfg. split; try done. simpl. by rewrite Hheap. }
  rewrite <- Hcont in Hc.
  destruct (useVList_onMounted_based user_fn _ c cr i configInput w1 Hc Hb)
    as (w2 & seed & middle & b & Hrun & _ & Hr2 & Hn2 & _ & Hu2 & _ & _ & Ht2 & Hq).
  assert (mount user_fn w1 = Ok tt w2) as Hmount.
  { rewrite (mount_single user_fn (BuildOnMount c cr i configInput)).
    - simpl. by rewrite (bind_Ok _ _ _ _ _ Hrun).
    - simpl. by rewrite Hmh, Hm0. }
  rewrite (bind_Ok _ _ _ _ _ Hmount).
  exists cr, i, w2, seed, middle, b. split; [reflexivity|].
  split_and!; [done| |done| |].
  - rewrite Ht2. simpl. by rewrite Htr, Hid.
  - rewrite <- Hid. by eapply ref_value_insert.
  - rewrite Hu2. simpl. exact Huh.
Qed.

(** The unmount signal of a component whose one callback for it is the
    destroy callback, with an instance published. *)
Lemma unmount_destroys_instance instance n w :
  beforeUnmountHooks w = [DestroyOnUnmount instance] →
  ref_value w instance = VInstance n →
  unmount user_fn w
  = Ok tt (set_refs (<[instance := VNull]> (refs w))
             (set_trace (trace w ++ [Edestroy n]) w)).
Proof.
  intros Hu Hinst. rewrite unmount_hooks, Hu. simpl.
  rewrite (bind_Ok _ _ _ _ _ (useVList_onBeforeUnmount_run instance w
             (or_intror (ex_intro _ _ Hinst)))).
  by rewrite Hinst.
Qed.

(** C1. For a component whose [setup] calls [useVList]: when the
    container handle is populated at the mount signal, the signal runs
    build-on-mount, which returns normally; the calls made contain one
    [build] and no [destroy], and the published reference, a cell
    [useVList] made, holds the instance that [build] returned.  The
    unmount signal then runs destroy-on-unmount: that instance's
    [destroy] is called and the reference is left [null]. *)
Theorem mount_then_unmount c configInput container w :
  mountedHooks w = [] → beforeUnmountHooks w = [] →
  setup_ok w configInput →
  JS.truthy container = true →
  JS.nullish (config_of w configInput) = false →
  closed (heap w) → allocated (heap w) (config_of w configInput) →
  ∃ containerRef instance w1 t,
    mounted_component user_fn c configInput container w
    = Ok (containerRef, instance) w1
    ∧ refs w !! instance = None
    ∧ trace w1 = trace w ++ t
    ∧ builds t = [next_id w]
    ∧ destroys t = []
    ∧ ref_value w1 instance = VInstance (next_id w)
    ∧ ∃ w2, unmount user_fn w1 = Ok tt w2
            ∧ trace w2 = trace w1 ++ [Edestroy (next_id w)]
            ∧ destroys (trace w2) = destroys (trace w1) ++ [next_id w]
            ∧ ref_value w2 instance = VNull.
Proof.
  intros Hm0 Hu0 Hok Hc Hn Hcl Ha.
  destruct (mounted_component_run c configInput container w Hm0 Hok Hc Hn Hcl Ha)
    as (cr & i & w1 & seed & middle & b & Hrun & Hi & Ht & Hq & Hinst & Hu).
  rewrite Hu0 in Hu. simpl in Hu.
  destruct (builds_mount_trace seed middle (next_id w) b Hq) as [Hb Hd].
  exists cr, i, w1, (Evlist (VObject seed) :: middle ++ [Ebuild (next_id w) b]).
  split_and!; [done..|].
  eexists. split; [by apply unmount_destroys_instance|]. simpl.
  split_and!; [done| |].
  - unfold destroys. by rewrite omap_app.
  - unfold ref_value. simpl. by rewrite lookup_insert_eq.
Qed.

(** X6. A component that calls [useVList], has its container bound, is
    mounted and then unmounted: the engine sees [vlist], the [use]s (and
    user calls), one [build] and then [destroy] of the built instance;
    the instance reference, a cell that did not exist before, ends
    [null]. *)
Theorem lifecycle_builds_then_destroys c configInput container w :
  mountedHooks w = [] → beforeUnmountHooks w = [] →
  setup_ok w configInput →
  JS.truthy container = true →
  JS.nullish (config_of w configInput) = false →
  closed (heap w) → allocated (heap w) (config_of w configInput) →
  ∃ instance w' seed middle b,
    lifecycle user_fn c configInput container w = Ok instance w'
    ∧ refs w !! instance = None
    ∧ trace w' = trace w ++ Evlist (VObject seed) :: middle
                   ++ [Ebuild (next_id w) b; Edestroy (next_id w)]
    ∧ Forall is_use_or_call middle
    ∧ ref_value w' instance = VNull.
Proof.
  intros Hm0 Hu0 Hok Hc Hn Hcl Ha.
  destruct (mounted_component_run c configInput container w Hm0 Hok Hc Hn Hcl Ha)
    as (cr & i & w1 & seed & middle & b & Hrun & Hi & Ht & Hq & Hinst & Hu).
  rewrite Hu0 in Hu. simpl in Hu.
  unfold lifecycle. rewrite (bind_Ok _ _ _ _ _ Hrun). cbv beta iota.
  rewrite (bind_Ok _ _ _ _ _ (unmount_destroys_instance i _ w1 Hu Hinst)).
  eexists i, _, seed, middle, b. split; [reflexivity|]. simpl.
  split_and!; [done| |done|].
  - rewrite Ht. rewrite <- !app_assoc. simpl. by rewrite <- !app_assoc.
  - unfold ref_value. simpl. by rewrite lookup_insert_eq.
Qed.

(** X7. A component whose container is never bound: mounting and
    unmounting it makes no call at all, whatever the configuration, and
    the instance reference stays [null]. *)
Theorem lifecycle_without_container c configInput container w :
  mountedHooks w = [] → beforeUnmountHooks w = [] →
  setup_ok w configInput →
  JS.truthy container = false →
  ∃ instance w',
    lifecycle user_fn c configInput container w = Ok instance w'
    ∧ trace w' = trace w
    ∧ heap w' = heap w
    ∧ ref_value w' instance = VNull.
Proof.
  intros Hm0 Hu0 Hok Hc.
  destruct (useVList_setup c configInput w Hok)
    as (cr & i & w0 & Hsetup & Hcr & Hi & Hne & Hrefs & Hheap & Htr & Hid & Hmh & Huh & _).
  set (w1 := set_refs (<[cr := container]> (refs w0)) w0).
  assert (Vue.write cr container w0 = Ok tt w1) as Hwrite by done.
  assert (ref_value w1 cr = container) as Hcont.
  { unfold ref_value. simpl. by rewrite lookup_insert_eq. }
  rewrite <- Hcont in Hc.
  assert (useVList_onMounted user_fn c cr i configInput w1 = Ok tt w1) as Hskip.
  { unfold useVList_onMounted.
    assert (Vue.read cr w1 = Ok (ref_value w1 cr) w1) as Hread by done.
    by rewrite (bind_Ok _ _ _ _ _ Hread), Hc. }
  assert (mount user_fn w1 = Ok tt w1) as Hmount.
  { rewrite (mount_single user_fn (BuildOnMount c cr i configInput)).
    - simpl. by rewrite (bind_Ok _ _ _ _ _ Hskip).
    - simpl. by rewrite Hmh, Hm0. }
  assert (mounted_component user_fn c configInput container w = Ok (cr, i) w1) as Hmc.
  { unfold mounted_component. rewrite (bind_Ok _ _ _ _ _ Hsetup). cbv beta iota.
    rewrite (bind_Ok _ _ _ _ _ Hwrite). by rewrite (bind_Ok _ _ _ _ _ Hmount). }
  assert (ref_value w1 i = VNull) as Hinst.
  { unfold ref_value. simpl. rewrite lookup_insert_ne by done.
    by rewrite Hrefs, lookup_insert_eq. }
  assert (unmount user_fn w1
          = Ok tt (set_refs (<[i := VNull]> (refs w1)) w1)) as Hunmount.
  { rewrite unmount_hooks. simpl. rewrite Huh, Hu0. simpl.
    rewrite (bind_Ok _ _ _ _ _ (useVList_onBeforeUnmount_run i w1
               (or_introl (f_equal JS.nullish Hinst)))).
    rewrite Hinst. cbv iota. by rewrite set_trace_nil. }
  unfold lifecycle. rewrite (bind_Ok _ _ _ _ _ Hmc). cbv beta iota.
  rewrite (bind_Ok _ _ _ _ _ Hunmount).
  eexists i, _. split; [reflexivity|]. simpl.
  split_and!; [done|done|].
  unfold ref_value. simpl. by rewrite lookup_insert_eq.
Qed.

End Signals.

(** ** Subscriptions over the life of a component *)

Lemma run_hooks_release user_fn us w :
  run_hooks user_fn (map Release us) w
  = Ok tt (set_trace (trace w ++ map Eunsub us) w).
Proof.
  revert w. induction us as [|u us IH]; intros w; simpl.
  - by rewrite set_trace_nil.
  - unfold mbind, M_bind. simpl. rewrite IH. simpl.
    by rewrite <- app_assoc.
Qed.

(** One reaction of the host, after [setup], on a world whose only
    observer is that of [useVListEvent]: what it registers on the engine
    gets no release callback. *)
Lemma flush_subscriber r name h last w :
  in_setup w = false →
  watchers w = [mkWatcher (ValueOf r) (Subscribe name h) last] →
  instance_or_empty (ref_value w r) →
  let seen := sightings last [ref_value w r] in
  ∃ w',
    flush w = Ok tt w'
    ∧ trace w' = trace w ++ registrations name h (next_id w) seen
    ∧ beforeUnmountHooks w' = beforeUnmountHooks w
    ∧ next_id w' = next_id w + length seen
    ∧ watchers w' = [mkWatcher (ValueOf r) (Subscribe name h) (ref_value w r)]
    ∧ refs w' = refs w
    ∧ in_setup w' = false.
Proof.
  intros Hs Hw Hv seen.
  assert (seen = match ref_value w r with
                 | VInstance i => if bool_decide (ref_value w r = last) then [] else [i]
                 | _ => []
                 end) as ->.
  { subst seen. by destruct (ref_value w r). }
  unfold flush, gets, mbind, M_bind. rewrite Hw. simpl.
  unfold poll, eval_source, Vue.read, gets, mbind, M_bind. simpl.
  destruct (bool_decide (ref_value w r = last)) eqn:Hsame.
  - apply bool_decide_eq_true_1 in Hsame.
    eexists. split; [reflexivity|]. simpl. rewrite Hsame.
    destruct last; simpl; rewrite ?app_nil_r; split_and!; (done || lia).
  - destruct Hv as [Hf|[i Hi]].
    + unfold useVListEvent_onInstance.
      rewrite Hf. simpl. eexists. split; [reflexivity|]. simpl.
      destruct (ref_value w r); try done;
        simpl; rewrite ?app_nil_r; split_and!; (done || lia).
    + rewrite Hi. rewrite useVListEvent_onInstance_run, Hs. simpl.
      eexists. split; [reflexivity|]. simpl. rewrite ?app_nil_r.
      split_and!; (done || lia).
Qed.

Lemma drive_subscriber r name h vs : ∀ last w,
  in_setup w = false →
  watchers w = [mkWatcher (ValueOf r) (Subscribe name h) last] →
  Forall instance_or_empty vs →
  let seen := sightings last vs in
  ∃ w',
    drive r vs w = Ok tt w'
    ∧ trace w' = trace w ++ registrations name h (next_id w) seen
    ∧ beforeUnmountHooks w' = beforeUnmountHooks w.
Proof.
  induction vs as [|v vs IH]; intros last w Hs Hw Hvs; simpl.
  - exists w. by rewrite !app_nil_r.
  - apply Forall_cons in Hvs as [Hv Hvs].
    set (w1 := set_refs (<[r := v]> (refs w)) w).
    assert (Vue.write r v w = Ok tt w1) as Hwrite by done.
    rewrite (bind_Ok _ _ _ _ _ Hwrite).
    assert (ref_value w1 r = v) as Hr.
    { unfold ref_value. simpl. by rewrite lookup_insert_eq. }
    rewrite <- Hr in Hv.
    destruct (flush_subscriber r name h last w1 Hs Hw Hv)
      as (w2 & Hflush & Ht2 & Hh2 & Hn2 & Hw2 & _ & Hs2).
    rewrite Hr in Hw2, Ht2, Hn2.
    rewrite (bind_Ok _ _ _ _ _ Hflush).
    destruct (IH v w2 Hs2 Hw2 Hvs) as (w3 & Hdrive & Ht3 & Hh3).
    exists w3. split; [exact Hdrive|].
    rewrite Ht3, Hh3, Ht2, Hh2, Hn2. simpl. split; [|done].
    destruct v; simpl; rewrite ?app_nil_r, ?Nat.add_0_r; try done.
    destruct (bool_decide (VInstance i = last));
      simpl; rewrite ?app_nil_r, ?Nat.add_0_r; try done.
    rewrite Nat.add_1_r, <- !app_assoc. done.
Qed.

Lemma registrations_app name h seen1 : ∀ n seen2,
  registrations name h n (seen1 ++ seen2)
  = registrations name h n seen1 ++ registrations name h (n + length seen1) seen2.
Proof.
  induction seen1 as [|i seen1 IH]; intros n seen2; simpl.
  - by rewrite Nat.add_0_r.
  - rewrite IH. do 3 f_equal. lia.
Qed.

(** [useVListEvent] during the [setup] of a component without
    observers: its own observer is the only one afterwards, and it has
    reacted once; a registration made by that reaction has its release
    scheduled. *)
Lemma useVListEvent_subscriber r name handler w :
  in_setup w = true →
  watchers w = [] → is_Some (refs w !! r) →
  instance_or_empty (ref_value w r) →
  let seen := sightings VUndefined [ref_value w r] in
  ∃ h w',
    useVListEvent r name handler w = Ok tt w'
    ∧ refs w !! h = None
    ∧ trace w' = trace w ++ registrations name h (next_id w) seen
    ∧ beforeUnmountHooks w'
      = beforeUnmountHooks w ++ map Release (seq (next_id w) (length seen))
    ∧ next_id w' = next_id w + length seen
    ∧ watchers w' = [mkWatcher (ValueOf r) (Subscribe name h) (ref_value w r)]
    ∧ refs w' = <[h := handler]> (refs w)
    ∧ heap w' = heap w
    ∧ mountedHooks w' = mountedHooks w
    ∧ in_setup w' = true.
Proof.
  intros Hs Hw Hsome Hv seen.
  assert (seen = match ref_value w r with VInstance i => [i] | _ => [] end) as ->.
  { subst seen. by destruct (ref_value w r). }
  assert (r ≠ fresh (dom (refs w))) as Hne by by apply fresh_ref_ne.
  exists (fresh (dom (refs w))).
  unfold useVListEvent, Vue.ref, watch, eval_source, Vue.read, gets, modify,
    mbind, M_bind, mret, M_ret.
  simpl. unfold ref_value at 1 2. simpl.
  rewrite lookup_insert_ne by done. fold (ref_value w r). rewrite Hw.
  destruct Hv as [Hf|[i Hi]].
  - unfold useVListEvent_onInstance.
    rewrite Hf. simpl. eexists. split; [reflexivity|]. simpl.
    split; [apply not_elem_of_dom, is_fresh|].
    destruct (ref_value w r); try done;
      simpl; rewrite ?app_nil_r; split_and!; (done || lia).
  - rewrite Hi. rewrite useVListEvent_onInstance_run. simpl. rewrite Hs.
    eexists. split; [reflexivity|]. simpl.
    split; [apply not_elem_of_dom, is_fresh|]. split_and!; (done || lia).
Qed.

Section Balance.

Variable user_fn : nat → list value → value.

(** X8. Over the life of a component whose [setup] calls
    [useVListEvent]: the observer reacts at once and then to every
    change of the reference, and registers the handler once on every
    instance it sights, without releasing any earlier registration.  A
    release is scheduled only for the registration made during [setup]
    (when the reference already held an instance); the registrations
    made by later reactions get none.  So the unmount signal releases
    that one subscription, if there is one, and every subscription made
    after [setup] is never released. *)
Theorem only_setup_subscription_released r name handler vs w :
  watchers w = [] → beforeUnmountHooks w = [] →
  is_Some (refs w !! r) →
  Forall instance_or_empty (ref_value w r :: vs) →
  let seen := sightings VUndefined (ref_value w r :: vs) in
  ∃ h w1 w2,
    (Vue.setup (useVListEvent r name handler);; drive r vs) w = Ok tt w1
    ∧ trace w1 = trace w ++ registrations name h (next_id w) seen
    ∧ unmount user_fn w1 = Ok tt w2
    ∧ trace w2 = trace w1 ++ match ref_value w r with
                             | VInstance _ => [Eunsub (next_id w)]
                             | _ => []
                             end.
Proof.
  intros Hw Hu Hsome Hvs seen.
  apply Forall_cons in Hvs as [Hv Hvs].
  destruct (useVListEvent_subscriber r name handler (set_in_setup true w) eq_refl
              Hw Hsome Hv)
    as (h & w0 & Hrun & _ & Ht0 & Hh0 & Hn0 & Hw0 & _).
  apply setup_run in Hrun.
  destruct (drive_subscriber r name h vs _ (set_in_setup false w0) eq_refl Hw0 Hvs)
    as (w1 & Hdrive & Ht1 & Hh1).
  change (ref_value (set_in_setup true w) r) with (ref_value w r) in *.
  simpl in Ht0, Hh0, Hn0, Ht1, Hh1.
  assert (seen = sightings VUndefined [ref_value w r]
                 ++ sightings (ref_value w r) vs) as Hseen.
  { subst seen. simpl. by destruct (ref_value w r). }
  clearbody seen. subst seen.
  exists h, w1.
  eexists (set_trace (trace w1 ++ _) w1).
  split_and!; [|..|done].
  - by rewrite (bind_Ok _ _ _ _ _ Hrun).
  - rewrite Ht1, Ht0, Hn0, registrations_app. by rewrite <- app_assoc.
  - rewrite unmount_hooks, Hh1, Hh0, Hu, app_nil_l.
    rewrite run_hooks_release. by destruct (ref_value w r).
Qed.

End Balance.

Section Order.

Variable user_fn : nat → list value → value.

(** X9. In a component whose [setup] calls [useVList] and then
    [useVListEvent] on its instance, the reference is still empty during
    [setup], so the handler is registered on the built instance only
    when the observers react after mount, and that registration gets no
    release callback: at unmount the instance is destroyed and the
    release handle of the subscription is never called. *)
Theorem unmount_destroys_without_release c config container name handler w :
  mountedHooks w = [] → beforeUnmountHooks w = [] → watchers w = [] →
  JS.truthy container = true →
  JS.nullish config = false →
  closed (heap w) → allocated (heap w) config →
  ∃ w' seed middle b handlerRef,
    list_with_event user_fn c config container name handler w = Ok tt w'
    ∧ Forall is_use_or_call middle
    ∧ trace w' = trace w ++ Evlist (VObject seed) :: middle
                   ++ [Ebuild (next_id w) b;
                       Eon (next_id w) name (Wrapped handlerRef) (S (next_id w));
                       Edestroy (next_id w)].
Proof.
  intros Hm0 Hu0 Hw0 Hc Hn Hcl Ha.
  destruct (useVList_run c (Plain config) (set_in_setup true w) eq_refl I)
    as (cr & i & w0 & Hsetup & Hcr & Hi & Hne & Hrefs & Hheap & Htr & Hid & Hmh & Huh
        & Hwa & Hs0).
  simpl in Hcr, Hi, Hrefs, Hheap, Htr, Hid, Hmh, Huh, Hwa.
  rewrite app_nil_r, Hw0 in Hwa.
  assert (ref_value w0 i = VNull) as Hi0.
  { unfold ref_value. by rewrite Hrefs, lookup_insert_eq. }
  assert (is_Some (refs w0 !! i)) as Hsome.
  { rewrite Hrefs, lookup_insert_eq. by eexists. }
  destruct (useVListEvent_subscriber i name handler w0 Hs0 Hwa Hsome)
    as (h & w1 & Hev & Hh & Ht1 & Hu1 & Hn1 & Hw1 & Hr1 & Hheap1 & Hm1 & _).
  { left. by rewrite Hi0. }
  rewrite Hi0 in Ht1, Hu1, Hn1, Hw1. simpl in Ht1, Hu1, Hn1.
  rewrite app_nil_r in Ht1, Hu1. rewrite Nat.add_0_r in Hn1.
  assert (Vue.setup ('(containerRef, instance) ← useVList c (Plain config);
                     useVListEvent instance name handler;;
                     mret (containerRef, instance)) w
          = Ok (cr, i) (set_in_setup false w1)) as Hset.
  { apply setup_run. rewrite (bind_Ok _ _ _ _ _ Hsetup). cbv beta iota.
    by rewrite (bind_Ok _ _ _ _ _ Hev). }
  unfold list_with_event. rewrite (bind_Ok _ _ _ _ _ Hset). cbv beta iota.
  set (w2 := set_refs (<[cr := container]> (refs (set_in_setup false w1)))
               (set_in_setup false w1)).
  assert (Vue.write cr container (set_in_setup false w1) = Ok tt w2) as Hwrite by done.
  rewrite (bind_Ok _ _ _ _ _ Hwrite).
  assert (ref_value w2 cr = container) as Hcont.
  { unfold ref_value. simpl. by rewrite lookup_insert_eq. }
  assert (based (heap w) (config_of w2 (Plain config)) w2) as Hb.
  { split; try done. simpl. by rewrite Hheap1, Hheap. }
  assert (next_id w2 = next_id w) as Hid2 by (simpl; congruence).
  assert (trace w2 = trace w) as Htr2 by (simpl; congruence).
  assert (mountedHooks w2 = [BuildOnMount c cr i (Plain config)]) as Hm2
    by (simpl; by rewrite Hm1, Hmh, Hm0).
  assert (beforeUnmountHooks w2 = [DestroyOnUnmount i]) as Hu2
    by (simpl; by rewrite Hu1, Huh, Hu0).
  assert (watchers w2 = [mkWatcher (ValueOf i) (Subscribe name h) VNull]) as Hw2
    by exact Hw1.
  assert (in_setup w2 = false) as Hs2 by done.
  clearbody w2.
  rewrite <- Hcont in Hc.
  destruct (useVList_onMounted_based user_fn _ c cr i (Plain config) w2 Hc Hb)
    as (w3 & seed & middle & b & Hrun & _ & Hr3 & Hn3 & _ & Hu3 & Hw3 & Hs3 & Ht3 & Hq).
  assert (mount user_fn w2 = Ok tt w3) as Hmount.
  { rewrite (mount_single user_fn (BuildOnMount c cr i (Plain config)) w2 Hm2).
    simpl. by rewrite (bind_Ok _ _ _ _ _ Hrun). }
  rewrite (bind_Ok _ _ _ _ _ Hmount).
  rewrite Hid2 in Hr3, Hn3, Ht3. rewrite Htr2 in Ht3. rewrite Hu2 in Hu3.
  rewrite Hw2 in Hw3. rewrite Hs2 in Hs3.
  assert (ref_value w3 i = VInstance (next_id w)) as Hinst
    by (by eapply ref_value_insert).
  destruct (flush_subscriber i name h VNull w3 Hs3 Hw3)
    as (w4 & Hflush & Ht4 & Hu4 & Hn4 & _ & Hr4 & _).
  { right. by eexists. }
  rewrite Hinst in Ht4, Hn4. simpl in Ht4, Hn4.
  rewrite Hn3 in Ht4. rewrite Hu3 in Hu4. rewrite Ht3 in Ht4.
  rewrite (bind_Ok _ _ _ _ _ Hflush).
  assert (ref_value w4 i = VInstance (next_id w)) as Hinst4.
  { unfold ref_value. rewrite Hr4. exact Hinst. }
  exists (set_refs (<[i := VNull]> (refs w4))
            (set_trace (trace w4 ++ [Edestroy (next_id w)]) w4)),
    seed, middle, b, h.
  split_and!; [|done|].
  - rewrite unmount_hooks, Hu4. simpl.
    rewrite (bind_Ok _ _ _ _ _ (useVList_onBeforeUnmount_run i w4
               (or_intror (ex_intro _ _ Hinst4)))).
    rewrite Hinst4. reflexivity.
  - cbn [trace set_trace set_refs]. rewrite Ht4.
    repeat (simpl; rewrite <- ?app_assoc). done.
Qed.

End Order.

Section Deferred.

Variable user_fn : nat → list value → value.

(** X10. A reactive configuration is read when the mount signal fires,
    not when [useVList] is called: if the cell is given another
    configuration in between, the engine is built from that one (its
    properties are what [vlist] receives, its fields decide the
    extensions), and the one [useVList] was called with is not used. *)
Theorem reactive_config_read_at_mount c r config' container w :
  mountedHooks w = [] →
  setup_ok w (Reactive r) →
  JS.truthy container = true →
  JS.nullish config' = false →
  closed (heap w) → allocated (heap w) config' →
  ∃ instance w' seed middle ps,
    mount_after_replacing user_fn c r config' container w = Ok instance w'
    ∧ trace w' = trace w ++ Evlist (VObject seed) :: middle
                   ++ [Ebuild (next_id w) (mkBuilder (VObject seed) ps)]
    ∧ heap w' !! seed
      = Some (Obj (<["container" := container]> (JS.own_props (heap w) config')))
    ∧ map kind_of ps = List.filter (wanted (heap w) config') fixed_order
    ∧ ref_value w' instance = VInstance (next_id w).
Proof.
  intros Hm0 Hok Hc Hn Hcl Ha.
  destruct (useVList_setup c (Reactive r) w Hok)
    as (cr & i & w0 & Hsetup & Hcr & Hi & Hne & Hrefs & Hheap & Htr & Hid & Hmh & _).
  destruct Hok as [[v Hv] _].
  unfold mount_after_replacing. rewrite (bind_Ok _ _ _ _ _ Hsetup). cbv beta iota.
  set (w1 := set_refs (<[cr := container]> (<[r := config']> (refs w0))) w0).
  assert ((Vue.write r config';; Vue.write cr container) w0 = Ok tt w1) as Hwrite by done.
  unfold mbind at 1. unfold M_bind at 1.
  change (Vue.write r config' w0) with (Ok tt (set_refs (<[r := config']> (refs w0)) w0)).
  cbv iota beta.
  assert (Vue.write cr container (set_refs (<[r := config']> (refs w0)) w0) = Ok tt w1)
    as Hwrite' by done.
  rewrite (bind_Ok _ _ _ _ _ Hwrite').
  assert (r ≠ cr) as Hrc by congruence.
  assert (ref_value w1 cr = container) as Hcont.
  { unfold ref_value. simpl. by rewrite lookup_insert_eq. }
  assert (config_of w1 (Reactive r) = config') as Hcfg.
  { simpl. unfold ref_value. simpl.
    by rewrite lookup_insert_ne, lookup_insert_eq by done. }
  assert (heap w1 = heap w) as Hheap1 by exact Hheap.
  assert (next_id w1 = next_id w) as Hid1 by exact Hid.
  assert (trace w1 = trace w) as Htr1 by exact Htr.
  assert (mountedHooks w1 = [BuildOnMount c cr i (Reactive r)]) as Hm1
    by (simpl; by rewrite Hmh, Hm0).
  clearbody w1.
  rewrite <- Hcont in Hc. rewrite <- Hcfg in Hn. rewrite <- Hheap1 in Hcl.
  rewrite <- Hcfg, <- Hheap1 in Ha.
  destruct (useVList_onMounted_mounted user_fn c cr i (Reactive r) w1 Hc Hn Hcl Ha)
    as (w2 & seed & ps_async & ps_sections & calls & sel & ps_scrollbar & Hrun & Hmt).
  destruct (mounted_trace _ _ _ _ _ _ _ _ _ _ _ _ _ Hmt) as (middle & Ht & _ & _).
  pose proof (plugins_of_kinds _ _ _ _ _ _ _ _ _ _ _ _ _ Hmt) as Hk.
  pose proof (m_seed _ _ _ _ _ _ _ _ _ _ _ _ _ Hmt) as Hseed.
  pose proof (ref_value_insert _ _ _ _ (m_refs _ _ _ _ _ _ _ _ _ _ _ _ _ Hmt)) as Hinst.
  assert (mount user_fn w1 = Ok tt w2) as Hmount.
  { rewrite (mount_single user_fn _ w1 Hm1). simpl.
    by rewrite (bind_Ok _ _ _ _ _ Hrun). }
  rewrite (bind_Ok _ _ _ _ _ Hmount).
  exists i, w2, seed, middle,
    (plugins_of (heap w1) (config_of w1 (Reactive r)) ps_async ps_sections sel
       ps_scrollbar).
  split; [reflexivity|].
  rewrite Hcfg, Hheap1, Hid1, Htr1, Hcont in *. done.
Qed.

End Deferred.

(** ** The further properties at concrete inputs *)

Lemma full_heap_closed : closed MoreExamples.full_heap.
Proof. apply (bool_decide_unpack _). vm_compute. exact I. Defined.

Lemma full_config_allocated :
  allocated MoreExamples.full_heap (VObject 1%positive).
Proof. apply (bool_decide_unpack _). vm_compute. exact I. Defined.

Lemma mount_then_unmount_witness :
  ∃ containerRef instance w1 w2,
    mounted_component Examples.fns SrcIndex (Plain (VObject 1%positive)) (VElement 7)
      Examples.plain_world = Ok (containerRef, instance) w1
    ∧ builds (trace w1) = [0]
    ∧ destroys (trace w1) = []
    ∧ ref_value w1 instance = VInstance 0
    ∧ unmount Examples.fns w1 = Ok tt w2
    ∧ trace w2 = trace w1 ++ [Edestroy 0]
    ∧ ref_value w2 instance = VNull.
Proof.
  destruct (mount_then_unmount Examples.fns SrcIndex (Plain (VObject 1%positive))
              (VElement 7) Examples.plain_world)
    as (cr & i & w1 & t & Hrun & _ & Ht & Hb & Hd & Hi & w2 & Hrun2 & Ht2 & _ & Hn);
    [reflexivity|reflexivity|exact I|reflexivity|reflexivity
    |exact plain_heap_closed|exact plain_config_allocated|].
  change (trace w1 = t) in Ht. subst t. by exists cr, i, w1, w2.
Defined.

Lemma page_iff_window_witness :
  ∃ w' b,
    useVList_onMounted Examples.fns SrcIndex 0 1 (Plain (VObject 1%positive))
      MoreExamples.full_world = Ok tt w'
    ∧ last (trace w') = Some (Ebuild 0 b)
    ∧ head (b_plugins b) = Some withPage
    ∧ List.filter (of_kind Page) (b_plugins b) = [withPage].
Proof.
  destruct (page_iff_window Examples.fns SrcIndex 0 1 (Plain (VObject 1%positive))
              MoreExamples.full_world)
    as (w' & b & Hrun & Hlast & Hyes & _);
    [reflexivity|reflexivity|exact full_heap_closed|exact full_config_allocated|].
  exists w', b. destruct Hyes as [Hhead Hone]; [by vm_compute|]. done.
Defined.

Lemma async_iff_adapter_witness :
  ∃ w' b l o,
    useVList_onMounted Examples.fns SrcIndex 0 1 (Plain (VObject 1%positive))
      MoreExamples.full_world = Ok tt w'
    ∧ last (trace w') = Some (Ebuild 0 b)
    ∧ List.filter (of_kind Async) (b_plugins b) = [withAsync (VObject l)]
    ∧ heap w' !! l = Some (Obj o)
    ∧ o !! "adapter" = Some (VObject 5%positive)
    ∧ o !! "loading" = Some (VObject 6%positive).
Proof.
  destruct (async_iff_adapter Examples.fns SrcIndex 0 1 (Plain (VObject 1%positive))
              MoreExamples.full_world)
    as (w' & b & Hrun & Hlast & _ & Hyes);
    [reflexivity|reflexivity|exact full_heap_closed|exact full_config_allocated|].
  destruct Hyes as (l & o & Hf & _ & Hl & Ha & Hld & _); [by vm_compute|].
  by exists w', b, l, o.
Defined.

Lemma grid_iff_layout_and_params_witness :
  ∃ w' b,
    useVList_onMounted Examples.fns SrcIndex 0 1 (Plain (VObject 1%positive))
      MoreExamples.full_world = Ok tt w'
    ∧ last (trace w') = Some (Ebuild 0 b)
    ∧ List.filter (of_kind Grid) (b_plugins b) = [withGrid (VObject 7%positive)].
Proof.
  destruct (grid_iff_layout_and_params Examples.fns SrcIndex 0 1
              (Plain (VObject 1%positive)) MoreExamples.full_world)
    as (w' & b & Hrun & Hlast & Hyes & _);
    [reflexivity|reflexivity|exact full_heap_closed|exact full_config_allocated|].
  exists w', b. split_and!; [done..|]. apply Hyes; by vm_compute.
Defined.

Lemma nullish_config_throws_witness :
  ∃ w' seed,
    useVList_onMounted Examples.fns SrcIndex 0 1 (Plain VNull) Examples.plain_world
    = Throw TypeError w'
    ∧ trace w' = [Evlist (VObject seed)]
    ∧ refs w' = refs Examples.plain_world.
Proof.
  destruct (nullish_config_throws Examples.fns SrcIndex 0 1 (Plain VNull)
              Examples.plain_world)
    as (w' & seed & Hrun & Ht & _ & _ & Hr); [reflexivity|reflexivity|].
  by exists w', seed.
Defined.

Lemma second_mount_replaces_without_destroy_witness :
  ∃ w1 w2 t,
    useVList_onMounted Examples.fns SrcIndex 0 1 (Plain (VObject 1%positive))
      Examples.plain_world = Ok tt w1
    ∧ useVList_onMounted Examples.fns SrcIndex 0 1 (Plain (VObject 1%positive)) w1
      = Ok tt w2
    ∧ ref_value w2 1 = VInstance 1
    ∧ trace w2 = t
    ∧ builds t = [0; 1]
    ∧ destroys t = [].
Proof.
  destruct (second_mount_replaces_without_destroy Examples.fns SrcIndex 0 1
              (Plain (VObject 1%positive)) Examples.plain_world)
    as (w1 & w2 & t & Hrun1 & _ & Hrun2 & Hi & Ht & Hb & Hd);
    [reflexivity|reflexivity|exact plain_heap_closed|exact plain_config_allocated
    |done|done|].
  by exists w1, w2, t.
Defined.

Lemma lifecycle_builds_then_destroys_witness :
  ∃ instance w' seed middle b,
    lifecycle Examples.fns SrcIndex (Plain (VObject 1%positive)) (VElement 7)
      Examples.plain_world = Ok instance w'
    ∧ trace w' = Evlist (VObject seed) :: middle ++ [Ebuild 0 b; Edestroy 0]
    ∧ Forall is_use_or_call middle
    ∧ ref_value w' instance = VNull.
Proof.
  destruct (lifecycle_builds_then_destroys Examples.fns SrcIndex
              (Plain (VObject 1%positive)) (VElement 7) Examples.plain_world)
    as (instance & w' & seed & middle & b & Hrun & _ & Ht & Hq & Hn);
    [reflexivity|reflexivity|exact I|reflexivity|reflexivity
    |exact plain_heap_closed|exact plain_config_allocated|].
  by exists instance, w', seed, middle, b.
Defined.

Lemma lifecycle_without_container_witness :
  ∃ instance w',
    lifecycle Examples.fns SrcIndex (Plain VNull) VNull Examples.plain_world
    = Ok instance w'
    ∧ trace w' = []
    ∧ ref_value w' instance = VNull.
Proof.
  destruct (lifecycle_without_container Examples.fns SrcIndex (Plain VNull) VNull
              Examples.plain_world)
    as (instance & w' & Hrun & Ht & _ & Hn); [reflexivity|reflexivity|exact I|reflexivity|].
  by exists instance, w'.
Defined.

Lemma only_setup_subscription_released_witness :
  ∃ h w1 w2,
    (Vue.setup (useVListEvent 1 "scroll" (VFunction 9));;
     drive 1 [VNull; VInstance 3; VInstance 3; VInstance 4]) Examples.live_world
    = Ok tt w1
    ∧ trace w1 = [Eon 0 "scroll" (Wrapped h) 1; Eon 3 "scroll" (Wrapped h) 2;
                  Eon 4 "scroll" (Wrapped h) 3]
    ∧ unmount Examples.fns w1 = Ok tt w2
    ∧ trace w2 = trace w1 ++ [Eunsub 1].
Proof.
  destruct (only_setup_subscription_released Examples.fns 1 "scroll" (VFunction 9)
              [VNull; VInstance 3; VInstance 3; VInstance 4] Examples.live_world)
    as (h & w1 & w2 & Hrun & Ht1 & Hun & Ht2);
    [reflexivity|reflexivity|by vm_compute; eexists| |].
  - repeat (apply Forall_cons; split; [first [by left|right; by eexists]|]).
    constructor.
  - by exists h, w1, w2.
Defined.

Lemma unmount_destroys_without_release_witness :
  ∃ w' seed middle b handlerRef,
    list_with_event Examples.fns SrcIndex (VObject 1%positive) (VElement 7) "scroll"
      (VFunction 9) Examples.plain_world = Ok tt w'
    ∧ trace w' = Evlist (VObject seed) :: middle
                   ++ [Ebuild 0 b; Eon 0 "scroll" (Wrapped handlerRef) 1; Edestroy 0].
Proof.
  destruct (unmount_destroys_without_release Examples.fns SrcIndex (VObject 1%positive)
              (VElement 7) "scroll" (VFunction 9) Examples.plain_world)
    as (w' & seed & middle & b & h & Hrun & _ & Ht);
    [reflexivity|reflexivity|reflexivity|reflexivity|reflexivity
    |exact plain_heap_closed|exact plain_config_allocated|].
  by exists w', seed, middle, b, h.
Defined.

Lemma reactive_config_read_at_mount_witness :
  ∃ instance w' seed middle ps,
    mount_after_replacing Examples.fns Part002 5 (VObject 1%positive) (VElement 7)
      MoreExamples.reactive_world = Ok instance w'
    ∧ trace w' = Evlist (VObject seed) :: middle
                   ++ [Ebuild 0 (mkBuilder (VObject seed) ps)]
    ∧ map kind_of ps = [Sections; Selection; Scale; Snapshots].
Proof.
  destruct (reactive_config_read_at_mount Examples.fns Part002 5 (VObject 1%positive)
              (VElement 7) MoreExamples.reactive_world)
    as (instance & w' & seed & middle & ps & Hrun & Ht & _ & Hk & _);
    [reflexivity|split; [by vm_compute; eexists|reflexivity]|reflexivity|reflexivity
    |exact grouped_heap_closed|exact grouped_config_allocated|].
  by exists instance, w', seed, middle, ps.
Defined.

Lemma part002_resolves_headerHeight_witness :
  ∃ w' t b l o,
    useVList_onMounted Examples.fns Part002 0 1 (Plain (VObject 1%positive))
      Examples.grouped_world = Ok tt w'
    ∧ trace w' = t
    ∧ last t = Some (Ebuild 0 b)
    ∧ List.filter (of_kind Sections) (b_plugins b) = [withSections (VObject l)]
    ∧ heap w' !! l = Some (Obj o)
    ∧ o !! "headerHeight" = Some (VNum 32)
    ∧ o !! "sticky" = None
    ∧ user_calls t = [(7, [VStr ""; VNum 0])].
Proof.
  destruct (part002_resolves_headerHeight Examples.fns 0 1 (Plain (VObject 1%positive))
              Examples.grouped_world)
    as (w' & t & b & l & o & Hrun & Ht & Hlast & Hf & _ & Hl & _ & _ & Hs & Hh & Hc);
    [reflexivity|reflexivity|exact grouped_heap_closed|exact grouped_config_allocated
    |reflexivity|].
  by exists w', t, b, l, o.
Defined.

Lemma index_ts_forwards_groups_witness :
  ∃ w' t b,
    useVList_onMounted Examples.fns SrcIndex 0 1 (Plain (VObject 1%positive))
      Examples.grouped_world = Ok tt w'
    ∧ trace w' = t
    ∧ last t = Some (Ebuild 0 b)
    ∧ List.filter (of_kind Sections) (b_plugins b) = [withSections (VObject 4%positive)]
    ∧ JS.prop (heap w') (VObject 4%positive) "headerHeight" = Some (VFunction 7)
    ∧ user_calls t = [].
Proof.
  destruct (index_ts_forwards_groups Examples.fns 0 1 (Plain (VObject 1%positive))
              Examples.grouped_world)
    as (w' & t & b & Hrun & Ht & Hlast & Hf & Hp & Hc);
    [reflexivity|reflexivity|exact grouped_heap_closed|exact grouped_config_allocated
    |reflexivity|].
  exists w', t, b. split_and!; first [done|by rewrite Hp].
Defined.
